(** * PPTMaker: the API adaptation layer ([src/lib/api.ts], [src/lib/openai-api.ts])

    A shallow embedding of the two facade operations [planPresentation] and
    [generateSlideImage], of the four transport wrappers, of the three
    server-sent-event loops and of [extractImage], together with the
    properties of the stream reassembly, of the error paths and of the
    dispatch that the specification states.

    Conventions.
    - Text is [string]: the characters the [TextDecoder] hands out, in order.
      A response body is the list of the decoded chunks its reader yields.
    - A parsed JSON document is a [json] tree; [undefined] is [None] of
      [value := option json].
    - An asynchronous function is a computation [Eff A]: it extends the trace
      of observable events (requests sent, progress callbacks made) and
      returns, throws, or stays pending for ever.
    - The platform ([JSON.parse], the conversions of numbers) is the
      interface [JSRuntime]; [Reference] gives an instance to run the
      model on concrete streams.

    The development goes on with the error paths of the two modules, the
    proxy loop, the image calls, and the server route of the Gemini proxy
    ([GeminiRoute]: [POST] and its three handlers). *)

From Stdlib Require Import List String Ascii ZArith Bool DecimalString.
Import ListNotations.

Local Open Scope string_scope.
Local Open Scope list_scope.
Local Open Scope Z_scope.

(** String concatenation, JavaScript [a + b] on two strings. *)
Infix "+++" := String.append (right associativity, at level 60).

(* ================================================================== *)
(** * JavaScript values *)

(** The result of [JSON.parse]. A number is kept as the decimal it was
    written as: [JNumber m e] is [m * 10^e]. The fields of an object are in
    source order; a repeated key is read through its last occurrence. *)
#[local] Unset Elimination Schemes.
Inductive json : Type :=
| JNull
| JBool (b : bool)
| JNumber (m e : Z)
| JString (s : string)
| JArray (items : list json)
| JObject (fields : list (string * json)).
#[local] Set Elimination Schemes.

(** A JavaScript value as this layer meets it: [None] is [undefined]. *)
Definition value : Type := option json.

(** What a [throw] carries. [instanceof Error] holds of [ErrorObj] (of
    [Error], [SyntaxError], [TypeError] and of the [AbortError]
    [DOMException]) and of nothing else. *)
Inductive thrown : Type :=
| ErrorObj (name message : string)
| NonError.

Definition Error (message : string) : thrown := ErrorObj "Error" message.
Definition SyntaxError (message : string) : thrown := ErrorObj "SyntaxError" message.
Definition TypeError (message : string) : thrown := ErrorObj "TypeError" message.
Definition AbortError : thrown := ErrorObj "AbortError" "The operation was aborted.".

(** The platform functions the module calls and whose result depends on the
    engine or on binary floating point:
    - [JSON_parse s] is the parsed value, or the message of the
      [SyntaxError] that [JSON.parse] throws;
    - [Number_toBoolean m e] is ToBoolean of the Number nearest to
      [m * 10^e], [Number_toString m e] its ToString. *)
Class JSRuntime : Type := {
  JSON_parse : string -> json + string;
  Number_toBoolean : Z -> Z -> bool;
  Number_toString : Z -> Z -> string
}.

(** [Array.prototype.join]. *)
Fixpoint join (sep : string) (l : list string) : string :=
  match l with
  | [] => ""
  | [x] => x
  | x :: rest => x +++ sep +++ join sep rest
  end.

Fixpoint lookup_last (k : string) (fields : list (string * json)) : value :=
  match fields with
  | [] => None
  | (k', v) :: rest =>
      match lookup_last k rest with
      | Some w => Some w
      | None => if String.eqb k k' then Some v else None
      end
  end.

Section Values.
Context {rt : JSRuntime}.

(** ToBoolean: the test of [if (x)], of [x || y] and of [!x]. *)
Definition ToBoolean (v : value) : bool :=
  match v with
  | None => false
  | Some JNull => false
  | Some (JBool b) => b
  | Some (JNumber m e) => Number_toBoolean m e
  | Some (JString s) => negb (String.eqb s "")
  | Some (JArray _) => true
  | Some (JObject _) => true
  end.

(** ToString of a parsed value: what [text += x] and a template literal
    append. An array joins its elements with a comma, [null] elements as
    the empty string; a plain object is ["[object Object]"]. *)
Fixpoint ToString (v : json) : string :=
  match v with
  | JNull => "null"
  | JBool true => "true"
  | JBool false => "false"
  | JNumber m e => Number_toString m e
  | JString s => s
  | JArray items =>
      join "," (map (fun x => match x with JNull => "" | _ => ToString x end) items)
  | JObject _ => "[object Object]"
  end.

Definition ToString_value (v : value) : string :=
  match v with
  | None => "undefined"
  | Some j => ToString j
  end.

(** [a || b]. *)
Definition js_or (a b : value) : value := if ToBoolean a then a else b.
End Values.

(** [base.k] on a value that is neither [null] nor [undefined], for the
    property names this module reads ([candidates], [content], [parts],
    [text], [inlineData], [mimeType], [data], [choices], [delta], [message],
    [images], [image_url], [url], [error], [chunk], [done], [result],
    [imageData], [b64_json]): none of them is a property of an array, a
    string, a number or a boolean, so only an object can hold one. *)
Definition prop (base : json) (k : string) : value :=
  match base with
  | JObject fields => lookup_last k fields
  | _ => None
  end.

(** [base[0]] on a value that is neither [null] nor [undefined]. *)
Definition index0 (base : json) : value :=
  match base with
  | JArray items => hd_error items
  | JString (String c _) => Some (JString (String c ""))
  | JObject fields => lookup_last "0" fields
  | _ => None
  end.

(** Optional chaining: [a?.k] and [a?.[0]]. *)
Definition opt_prop (a : value) (k : string) : value :=
  match a with
  | None | Some JNull => None
  | Some base => prop base k
  end.

Definition opt_index0 (a : value) : value :=
  match a with
  | None | Some JNull => None
  | Some base => index0 base
  end.

Notation "a '?.' k" := (opt_prop a k) (at level 1, k at level 0, left associativity).
Notation "a '?.[0]'" := (opt_index0 a) (at level 1, left associativity).

(* ================================================================== *)
(** * Configuration, requests and the network *)

Inductive ApiProtocol : Type := VERTEX_AI | OPENAI.
Inductive RequestMode : Type := CLIENT_DIRECT | SERVER_PROXY.

(** [ApiConfig] of [./config], as [api.ts] reads it. *)
Record ApiConfig : Type := {
  protocol : ApiProtocol;
  requestMode : RequestMode;
  apiBase : string;
  apiKey : string;
  contentModelId : string;
  imageModelId : string
}.

(** [PresentationConfig] and [SlideContent] of [./types] are only handed to
    the prompt builders and to [JSON.stringify]: objects this layer never
    looks into. *)
Definition PresentationConfig : Type := json.
Definition SlideContent : Type := json.

(** What a request carries, before [./prompts] and [JSON.stringify] turn it
    into text: the wire shape and the caller's inputs it is built from. *)
Inductive request_body : Type :=
| VertexPlanBody (document : string) (presentationConfig : PresentationConfig)
| OpenAIPlanBody (document : string) (presentationConfig : PresentationConfig)
| VertexImageBody (slide : SlideContent) (deckTitle : string)
    (presentationConfig : PresentationConfig)
| OpenAIChatImageBody (slide : SlideContent) (deckTitle : string)
    (presentationConfig : PresentationConfig)
| OpenAIImagesBody (slide : SlideContent) (deckTitle : string)
    (presentationConfig : PresentationConfig)
| ProxyPlanBody (document : string) (presentationConfig : PresentationConfig)
    (apiConfig : ApiConfig)
| ProxyGenBody (slide : SlideContent) (deckTitle : string)
    (presentationConfig : PresentationConfig) (apiConfig : ApiConfig).

(** One call of [fetch]. [req_signal] is [Some ms] when the request is given
    the signal of an [AbortController] that a timer aborts after [ms]
    milliseconds, [None] when it is given no signal. *)
Record request : Type := {
  req_url : string;
  req_auth : option (string * string);
  req_body : request_body;
  req_signal : option Z
}.

(** A [Response]: status and body, the body as the decoded chunks that its
    reader yields before it reports [done] ([None]: no body). *)
Record response : Type := {
  ok : bool;
  statusText : string;
  body : option (list string)
}.

(** What the transport does with a request: it resolves [fetch] with a
    response or rejects it after so many milliseconds, or it never settles. *)
Inductive transport_answer : Type :=
| Resolves (after_ms : Z) (r : response)
| Rejects (after_ms : Z) (e : thrown)
| Silent.

Definition network : Type := request -> transport_answer.

(* ================================================================== *)
(** * Computations with a trace *)

Inductive event : Type :=
| EvFetch (r : request)
| EvChunk (arg : json).

(** The progress callback [onChunk]: given what has happened so far and its
    argument, it returns ([None]) or throws. *)
Definition callback : Type := list event -> json -> option thrown.

Inductive outcome (A : Type) : Type :=
| Returned (a : A)
| Threw (t : thrown)
| Pending.
Arguments Returned {A} a.
Arguments Threw {A} t.
Arguments Pending {A}.

Definition Eff (A : Type) : Type := list event -> list event * outcome A.

Definition ret {A} (a : A) : Eff A := fun tr => (tr, Returned a).
Definition throw {A} (t : thrown) : Eff A := fun tr => (tr, Threw t).

Definition bind {A B} (m : Eff A) (k : A -> Eff B) : Eff B :=
  fun tr =>
    match m tr with
    | (tr', Returned a) => k a tr'
    | (tr', Threw t) => (tr', Threw t)
    | (tr', Pending) => (tr', Pending)
    end.

(** [try { m } catch (e) { h e }]. *)
Definition try_catch {A} (m : Eff A) (h : thrown -> Eff A) : Eff A :=
  fun tr =>
    match m tr with
    | (tr', Threw t) => h t tr'
    | r => r
    end.

Notation "x <- m ;; k" := (bind m (fun x => k))
  (at level 61, m at next level, right associativity).
Notation "m ;; k" := (bind m (fun _ => k))
  (at level 61, right associativity).

(** [for (const x of l) { f x }] over a loop state. *)
Fixpoint for_of {A S} (f : A -> S -> Eff S) (l : list A) (s : S) : Eff S :=
  match l with
  | [] => ret s
  | x :: rest => s' <- f x s ;; for_of f rest s'
  end.

(** [if (onChunk) onChunk(arg)] is [call_onChunk onChunk arg]. *)
Definition call (cb : callback) (arg : json) : Eff unit :=
  fun tr =>
    (tr ++ [EvChunk arg],
     match cb tr arg with
     | None => Returned tt
     | Some t => Threw t
     end).

Definition call_onChunk (onChunk : option callback) (arg : json) : Eff unit :=
  match onChunk with
  | Some cb => call cb arg
  | None => ret tt
  end.

(** [await fetch(url, {..., signal})]. The request is sent. With a signal,
    a transport that has not settled when the timer fires makes [fetch]
    reject with an [AbortError]; with none, [fetch] waits for the transport
    however long it takes. *)
Definition fetch (net : network) (req : request) : Eff response :=
  fun tr =>
    (tr ++ [EvFetch req],
     match net req, req_signal req with
     | Resolves t r, Some limit => if t <? limit then Returned r else Threw AbortError
     | Resolves _ r, None => Returned r
     | Rejects t e, Some limit => if t <? limit then Threw e else Threw AbortError
     | Rejects _ e, None => Threw e
     | Silent, Some _ => Threw AbortError
     | Silent, None => Pending
     end).

(** [e instanceof Error && e.name === "AbortError"]. *)
Definition is_AbortError (t : thrown) : bool :=
  match t with
  | ErrorObj name _ => String.eqb name "AbortError"
  | NonError => false
  end.

Definition String_concat (l : list string) : string := fold_right String.append "" l.

Section Bodies.
Context {rt : JSRuntime}.

(** [JSON.parse(s)], throwing its [SyntaxError]. *)
Definition JSON_parse_or_throw (s : string) : Eff json :=
  match JSON_parse s with
  | inl v => ret v
  | inr message => throw (SyntaxError message)
  end.

(** [await response.text()] and [await response.json()]. *)
Definition response_text (r : response) : string :=
  match body r with
  | Some chunks => String_concat chunks
  | None => ""
  end.

Definition response_json (r : response) : Eff json :=
  JSON_parse_or_throw (response_text r).

(** [await response.json().catch(() => ({}))]. *)
Definition response_json_or_empty (r : response) : json :=
  match JSON_parse (response_text r) with
  | inl v => v
  | inr _ => JObject []
  end.
End Bodies.

(* ================================================================== *)
(** * Strings as the loops use them *)

Definition newline : ascii := Ascii.ascii_of_nat 10.

(** [s.split("\n")]: never empty; the last piece is what follows the last
    line feed. *)
Fixpoint split_newline (s : string) : list string :=
  match s with
  | EmptyString => [""]
  | String c rest =>
      if Ascii.eqb c newline then "" :: split_newline rest
      else match split_newline rest with
           | piece :: pieces => String c piece :: pieces
           | [] => [String c ""]
           end
  end.

(** [lines.pop()]: the array without its last element, and that element. *)
Fixpoint Array_pop {A} (l : list A) : list A * option A :=
  match l with
  | [] => ([], None)
  | [x] => ([], Some x)
  | x :: rest => let (front, last) := Array_pop rest in (x :: front, last)
  end.

(** [line.startsWith(p)] and [line.slice(n)]. *)
Definition startsWith (line p : string) : bool := String.prefix p line.

Fixpoint slice (n : nat) (s : string) : string :=
  match n, s with
  | O, _ => s
  | S n', String _ rest => slice n' rest
  | S _, EmptyString => ""
  end.

(* ================================================================== *)
(** * The module [api.ts] *)

Definition default_timeoutMs : Z := 180000.

Section Api.
Context {rt : JSRuntime}.

(** [cleanJsonString] of [./utils]: imported by [api.ts], its source is
    not part of the module. The results of this section hold whatever
    text-to-text function it is. *)
Variable cleanJsonString : string -> string.

(** The network the calls go through. *)
Variable net : network.

(** [base.k] where [base] may be [null]: a [TypeError] then. *)
Definition member (base : json) (k : string) : Eff value :=
  match base with
  | JNull =>
      throw (TypeError ("Cannot read properties of null (reading '" +++ k +++ "')"))
  | _ => ret (prop base k)
  end.

(** [base.k] where [base] may be [null] or [undefined]. *)
Definition member_of_value (base : value) (k : string) : Eff value :=
  match base with
  | None =>
      throw (TypeError ("Cannot read properties of undefined (reading '" +++ k +++ "')"))
  | Some b => member b k
  end.

(** The [catch] of the four direct wrappers: an abort becomes the timeout
    error, whose message prints [timeoutMs / 1000]; anything else is
    thrown again. *)
Definition timeout_or_rethrow {A} (timeoutMs : Z) (error : thrown) : Eff A :=
  if is_AbortError error
  then throw (Error ("Request timeout after " +++ Number_toString timeoutMs (-3)
                       +++ " seconds"))
  else throw error.

(** The message of a failed streaming request: [errorData?.error?.message
    || response.statusText] when the body parses, [errorText ||
    response.statusText] when it does not. *)
Definition stream_error_message (r : response) : string :=
  let errorText := response_text r in
  match JSON_parse errorText with
  | inl errorData =>
      ToString_value (js_or ((Some errorData)?."error"?."message")
                            (Some (JString (statusText r))))
  | inr _ => if String.eqb errorText "" then statusText r else errorText
  end.

(** The message of a failed single-shot request: [errorData] is [{}] when
    the body does not parse. *)
Definition call_error_message (r : response) : string :=
  let errorData := response_json_or_empty r in
  ToString_value (js_or ((Some errorData)?."error"?."message")
                        (Some (JString (statusText r)))).

Definition clientStreamVertexAPI (config : ApiConfig) (model : string)
    (requestBody : request_body) (timeoutMs : Z) : Eff response :=
  let url := apiBase config +++ "/models/" +++ model
             +++ ":streamGenerateContent?alt=sse" in
  try_catch
    (r <- fetch net {| req_url := url;
                       req_auth := Some ("X-Goog-Api-Key", apiKey config);
                       req_body := requestBody;
                       req_signal := Some timeoutMs |} ;;
     if negb (ok r)
     then throw (Error ("API error: " +++ stream_error_message r))
     else ret r)
    (timeout_or_rethrow timeoutMs).

Definition clientStreamOpenAIAPI (config : ApiConfig) (model : string)
    (requestBody : request_body) (timeoutMs : Z) : Eff response :=
  let url := apiBase config +++ "/chat/completions" in
  try_catch
    (r <- fetch net {| req_url := url;
                       req_auth := Some ("Authorization", "Bearer " +++ apiKey config);
                       req_body := requestBody;
                       req_signal := Some timeoutMs |} ;;
     if negb (ok r)
     then throw (Error ("API error: " +++ stream_error_message r))
     else ret r)
    (timeout_or_rethrow timeoutMs).

Definition clientCallVertexAPI (config : ApiConfig) (model : string)
    (requestBody : request_body) (timeoutMs : Z) : Eff json :=
  let url := apiBase config +++ "/models/" +++ model +++ ":generateContent" in
  try_catch
    (r <- fetch net {| req_url := url;
                       req_auth := Some ("X-Goog-Api-Key", apiKey config);
                       req_body := requestBody;
                       req_signal := Some timeoutMs |} ;;
     if negb (ok r)
     then throw (Error ("API error: " +++ call_error_message r))
     else response_json r)
    (timeout_or_rethrow timeoutMs).

Definition clientCallOpenAIImageAPI (config : ApiConfig) (model : string)
    (requestBody : request_body) (timeoutMs : Z) : Eff json :=
  let url := apiBase config +++ "/chat/completions" in
  try_catch
    (r <- fetch net {| req_url := url;
                       req_auth := Some ("Authorization", "Bearer " +++ apiKey config);
                       req_body := requestBody;
                       req_signal := Some timeoutMs |} ;;
     if negb (ok r)
     then throw (Error ("API error: " +++ call_error_message r))
     else response_json r)
    (timeout_or_rethrow timeoutMs).

(** [for (const part of x)]: the elements of an array, the characters of a
    string; any other value that is not [null] is not iterable. *)
Definition iterate (x : json) : Eff (list json) :=
  match x with
  | JArray items => ret items
  | JString s => ret (map (fun c => JString (String c "")) (list_ascii_of_string s))
  | _ => throw (TypeError "object is not iterable")
  end.

(** The loop of [extractImage] over the parts that are left. *)
Fixpoint extractImage_parts (parts : list json) : Eff (option string) :=
  match parts with
  | [] => ret None
  | part :: rest =>
      inlineData <- member part "inlineData" ;;
      if ToBoolean (inlineData?."data")
      then
        let mimeType := js_or (inlineData?."mimeType") (Some (JString "image/png")) in
        ret (Some ("data:" +++ ToString_value mimeType +++ ";base64,"
                     +++ ToString_value (inlineData?."data")))
      else extractImage_parts rest
  end.

(** [extractImage]: a data URI, or [None] for [null]. *)
Definition extractImage (response : json) : Eff (option string) :=
  candidates <- member response "candidates" ;;
  parts <- iterate
    match js_or (candidates?.[0]?."content"?."parts") (Some (JArray [])) with
    | Some x => x
    | None => JArray []
    end ;;
  extractImage_parts parts.

(** ** The server-sent-event loops *)

(** One turn of [while (true) { ... reader.read() ... }] on a chunk that
    is not the end: [buffer += chunk], [lines = buffer.split("\n")],
    [buffer = lines.pop() || ""], then the [for] over the lines. The loop
    state is [buffer] and whatever the line handler maintains. *)
Definition read_chunk {S} (on_line : string -> S -> Eff S)
    (chunk : string) (st : string * S) : Eff (string * S) :=
  let '(buffer, s) := st in
  let '(lines, last) := Array_pop (split_newline (buffer +++ chunk)) in
  let buffer' := match last with Some piece => piece | None => "" end in
  s' <- for_of on_line lines s ;;
  ret (buffer', s').

(** The whole loop, until [reader.read()] reports [done]; what is left in
    [buffer] then is dropped. *)
Definition read_stream {S} (on_line : string -> S -> Eff S)
    (chunks : list string) (s : S) : Eff S :=
  st <- for_of (read_chunk on_line) chunks ("", s) ;;
  ret (snd st).

(** [fullText += delta; if (onChunk) onChunk(delta)] inside the [try] of
    a direct loop: the text has grown when the callback runs, and the
    [catch] swallows what the callback throws. *)
Definition accumulate (onChunk : option callback) (delta : json)
    (fullText : string) : Eff string :=
  let fullText' := fullText +++ ToString delta in
  try_catch (call_onChunk onChunk delta ;; ret fullText')
            (fun _ => ret fullText').

(** The body of the [for] in the OpenAI branch. *)
Definition openai_line (onChunk : option callback) (line : string)
    (fullText : string) : Eff string :=
  if startsWith line "data: " then
    let data := slice 6 line in
    if String.eqb data "[DONE]" then ret fullText
    else
      try_catch
        (parsed <- JSON_parse_or_throw data ;;
         choices <- member parsed "choices" ;;
         let content := choices?.[0]?."delta"?."content" in
         match content with
         | Some delta =>
             if ToBoolean content then accumulate onChunk delta fullText
             else ret fullText
         | None => ret fullText
         end)
        (fun _ => ret fullText)
  else ret fullText.

(** The body of the [for] in the Vertex branch. *)
Definition vertex_line (onChunk : option callback) (line : string)
    (fullText : string) : Eff string :=
  if startsWith line "data: " then
    let data := slice 6 line in
    try_catch
      (parsed <- JSON_parse_or_throw data ;;
       candidates <- member parsed "candidates" ;;
       let text := candidates?.[0]?."content"?."parts"?.[0]?."text" in
       match text with
       | Some delta =>
           if ToBoolean text then accumulate onChunk delta fullText
           else ret fullText
       | None => ret fullText
       end)
      (fun _ => ret fullText)
  else ret fullText.

(** [response.body?.getReader()], and the error when there is none. *)
Definition getReader (r : response) : Eff (list string) :=
  match body r with
  | Some chunks => ret chunks
  | None => throw (Error "No response body")
  end.

Definition planPresentationClientDirect (document : string)
    (presentationConfig : PresentationConfig) (apiConfig : ApiConfig)
    (onChunk : option callback) : Eff json :=
  fullText <-
    match protocol apiConfig with
    | OPENAI =>
        r <- clientStreamOpenAIAPI apiConfig (contentModelId apiConfig)
               (OpenAIPlanBody document presentationConfig) default_timeoutMs ;;
        reader <- getReader r ;;
        read_stream (openai_line onChunk) reader ""
    | VERTEX_AI =>
        r <- clientStreamVertexAPI apiConfig (contentModelId apiConfig)
               (VertexPlanBody document presentationConfig) default_timeoutMs ;;
        reader <- getReader r ;;
        read_stream (vertex_line onChunk) reader ""
    end ;;
  let cleanedText := cleanJsonString fullText in
  JSON_parse_or_throw cleanedText.

(** [images.length === 0] for a truthy [images]. *)
Definition length_is_zero (images : json) : bool :=
  match images with
  | JArray [] => true
  | JObject fields =>
      match lookup_last "length" fields with
      | Some (JNumber m e) => negb (Number_toBoolean m e)
      | _ => false
      end
  | _ => false
  end.

Definition generateSlideImageClientDirect (slide : SlideContent)
    (deckTitle : string) (presentationConfig : PresentationConfig)
    (apiConfig : ApiConfig) : Eff value :=
  match protocol apiConfig with
  | OPENAI =>
      r <- clientCallOpenAIImageAPI apiConfig (imageModelId apiConfig)
             (OpenAIChatImageBody slide deckTitle presentationConfig)
             default_timeoutMs ;;
      choices <- member r "choices" ;;
      let images := choices?.[0]?."message"?."images" in
      match images with
      | Some imgs =>
          if negb (ToBoolean images) || length_is_zero imgs
          then throw (Error "No image generated")
          else
            image_url <- member_of_value (index0 imgs) "image_url" ;;
            member_of_value image_url "url"
      | None => throw (Error "No image generated")
      end
  | VERTEX_AI =>
      r <- clientCallVertexAPI apiConfig (imageModelId apiConfig)
             (VertexImageBody slide deckTitle presentationConfig)
             default_timeoutMs ;;
      extracted <- extractImage r ;;
      match extracted with
      | Some uri =>
          if String.eqb uri "" then throw (Error "No image generated")
          else ret (Some (JString uri))
      | None => throw (Error "No image generated")
      end
  end.

(** ** Server proxy *)

(** The message of a failed proxy request: [errorData?.error ||
    response.statusText]. *)
Definition proxy_error_message (r : response) : string :=
  let errorData := response_json_or_empty r in
  ToString_value (js_or ((Some errorData)?."error") (Some (JString (statusText r)))).

(** The [catch] of the proxy loop. *)
Definition proxy_catch {A} (keep : A) (e : thrown) : Eff A :=
  match e with
  | ErrorObj _ message =>
      if negb (String.eqb message "Unexpected end of JSON input")
      then throw e
      else ret keep
  | NonError => ret keep
  end.

(** The body of the [for] in [planPresentationServerProxy]; the state is
    [result], [None] for [null]. *)
Definition proxy_line (onChunk : option callback) (line : string)
    (result : option json) : Eff (option json) :=
  if startsWith line "data: " then
    let data := slice 6 line in
    try_catch
      (parsed <- JSON_parse_or_throw data ;;
       error <- member parsed "error" ;;
       (if ToBoolean error then throw (Error (ToString_value error)) else ret tt) ;;
       chunk <- member parsed "chunk" ;;
       match chunk, onChunk with
       | Some c, Some cb => if ToBoolean chunk then call cb c else ret tt
       | _, _ => ret tt
       end ;;
       done <- member parsed "done" ;;
       res <- member parsed "result" ;;
       if ToBoolean done && ToBoolean res then ret res else ret result)
      (proxy_catch result)
  else ret result.

Definition planPresentationServerProxy (document : string)
    (presentationConfig : PresentationConfig) (apiConfig : ApiConfig)
    (onChunk : option callback) : Eff json :=
  r <- fetch net {| req_url := "/api/plan";
                    req_auth := None;
                    req_body := ProxyPlanBody document presentationConfig apiConfig;
                    req_signal := None |} ;;
  (if negb (ok r) then throw (Error (proxy_error_message r)) else ret tt) ;;
  reader <- getReader r ;;
  result <- read_stream (proxy_line onChunk) reader None ;;
  match result with
  | Some v => if ToBoolean result then ret v
              else throw (Error "No result received from stream")
  | None => throw (Error "No result received from stream")
  end.

Definition generateSlideImageServerProxy (slide : SlideContent)
    (deckTitle : string) (presentationConfig : PresentationConfig)
    (apiConfig : ApiConfig) : Eff value :=
  r <- fetch net {| req_url := "/api/gen";
                    req_auth := None;
                    req_body := ProxyGenBody slide deckTitle presentationConfig apiConfig;
                    req_signal := None |} ;;
  (if negb (ok r) then throw (Error (proxy_error_message r)) else ret tt) ;;
  data <- response_json r ;;
  member data "imageData".

(** ** The facade *)

(** [getApiConfig()] of [./config]: the stored configuration, or [None]
    for [null]. *)
Variable getApiConfig : option ApiConfig.

Definition planPresentation (document : string)
    (presentationConfig : PresentationConfig) (onChunk : option callback)
    : Eff json :=
  match getApiConfig with
  | None => throw (Error "API not configured")
  | Some apiConfig =>
      match requestMode apiConfig with
      | CLIENT_DIRECT =>
          planPresentationClientDirect document presentationConfig apiConfig onChunk
      | SERVER_PROXY =>
          planPresentationServerProxy document presentationConfig apiConfig onChunk
      end
  end.

Definition generateSlideImage (slide : SlideContent) (deckTitle : string)
    (presentationConfig : PresentationConfig) : Eff value :=
  match getApiConfig with
  | None => throw (Error "API not configured")
  | Some apiConfig =>
      match requestMode apiConfig with
      | CLIENT_DIRECT =>
          generateSlideImageClientDirect slide deckTitle presentationConfig apiConfig
      | SERVER_PROXY =>
          generateSlideImageServerProxy slide deckTitle presentationConfig apiConfig
      end
  end.
End Api.

(* ================================================================== *)
(** * A reference runtime *)

(** An instance of [JSRuntime] to run the model: a parser of the JSON
    grammar (ECMA-404) with the two kinds of message the module can tell
    apart, and the conversions of numbers where they need no rounding.
    Strings are read as bytes of UTF-8 text. The theorems of this file are
    stated for every [JSRuntime]; this one serves the runs on concrete
    streams at the end. *)
Module Reference.

Local Open Scope char_scope.

Inductive parse_error : Type :=
| EndOfInput   (* the text stops where more is required *)
| BadToken.    (* a character that cannot stand where it is *)

Definition presult (A : Type) : Type := (A * list ascii) + parse_error.

(** The quotation mark. *)
Definition dquote : ascii := ascii_of_nat 34.

Definition is_ws (c : ascii) : bool :=
  let n := nat_of_ascii c in
  (Nat.eqb n 32 || Nat.eqb n 9 || Nat.eqb n 10 || Nat.eqb n 13)%bool.

Fixpoint skip_ws (cs : list ascii) : list ascii :=
  match cs with
  | c :: rest => if is_ws c then skip_ws rest else cs
  | [] => []
  end.

Definition digit_of (c : ascii) : option Z :=
  let n := nat_of_ascii c in
  if (Nat.leb 48 n && Nat.leb n 57)%bool then Some (Z.of_nat (n - 48)) else None.

Definition hex_of (c : ascii) : option nat :=
  let n := nat_of_ascii c in
  if (Nat.leb 48 n && Nat.leb n 57)%bool then Some (n - 48)%nat
  else if (Nat.leb 65 n && Nat.leb n 70)%bool then Some (n - 55)%nat
  else if (Nat.leb 97 n && Nat.leb n 102)%bool then Some (n - 87)%nat
  else None.

(** The UTF-8 bytes of a UTF-16 code unit written as a [\uXXXX] escape. *)
Definition utf8_of_unit (u : nat) : list ascii :=
  if Nat.ltb u 128 then [ascii_of_nat u]
  else if Nat.ltb u 2048 then
    [ascii_of_nat (192 + u / 64); ascii_of_nat (128 + u mod 64)]
  else
    [ascii_of_nat (224 + u / 4096); ascii_of_nat (128 + (u / 64) mod 64);
     ascii_of_nat (128 + u mod 64)].

(** Expects the rest of a literal name ([rue], [alse], [ull]). *)
Fixpoint expect (word cs : list ascii) : presult unit :=
  match word, cs with
  | [], _ => inl (tt, cs)
  | _ :: _, [] => inr EndOfInput
  | w :: word', c :: cs' => if Ascii.eqb w c then expect word' cs' else inr BadToken
  end.

(** The characters of a string after its opening quote. *)
Fixpoint parse_chars (cs : list ascii) (acc : list ascii) : presult string :=
  match cs with
  | [] => inr EndOfInput
  | c :: rest =>
      if Ascii.eqb c dquote then inl (string_of_list_ascii (rev acc), rest)
      else if Nat.ltb (nat_of_ascii c) 32 then inr BadToken
      else if Ascii.eqb c "\" then
        match rest with
        | [] => inr EndOfInput
        | e :: rest' =>
            if Ascii.eqb e "u" then
              match rest' with
              | a :: b :: c' :: d :: rest'' =>
                  match hex_of a, hex_of b, hex_of c', hex_of d with
                  | Some a, Some b, Some c', Some d =>
                      parse_chars rest''
                        (rev (utf8_of_unit (((a * 16 + b) * 16 + c') * 16 + d)) ++ acc)
                  | _, _, _, _ => inr BadToken
                  end
              | _ => inr EndOfInput
              end
            else
              let plain (x : ascii) := parse_chars rest' (x :: acc) in
              if Ascii.eqb e dquote then plain dquote
              else if Ascii.eqb e "\" then plain "\"
              else if Ascii.eqb e "/" then plain "/"
              else if Ascii.eqb e "b" then plain (ascii_of_nat 8)
              else if Ascii.eqb e "f" then plain (ascii_of_nat 12)
              else if Ascii.eqb e "n" then plain (ascii_of_nat 10)
              else if Ascii.eqb e "r" then plain (ascii_of_nat 13)
              else if Ascii.eqb e "t" then plain (ascii_of_nat 9)
              else inr BadToken
        end
      else parse_chars rest (c :: acc)
  end.

(** A run of digits: their value, how many there are, and what follows. *)
Fixpoint digits (cs : list ascii) (acc : Z) (count : Z) : Z * Z * list ascii :=
  match cs with
  | c :: rest =>
      match digit_of c with
      | Some d => digits rest (acc * 10 + d) (count + 1)
      | None => (acc, count, cs)
      end
  | [] => (acc, count, cs)
  end.

(** At least one digit. *)
Definition digits1 (cs : list ascii) (acc : Z) : presult (Z * Z) :=
  match cs with
  | [] => inr EndOfInput
  | c :: _ =>
      match digit_of c with
      | None => inr BadToken
      | Some _ => let '(v, n, rest) := digits cs acc 0 in inl ((v, n), rest)
      end
  end.

(** [-? int frac? exp?], from the first character of the integer part. *)
Definition parse_number (negative : bool) (cs : list ascii) : presult json :=
  match cs with
  | [] => inr EndOfInput
  | c :: rest =>
      match digit_of c with
      | None => inr BadToken
      | Some d =>
          let '(int_part, _, after_int) :=
            if Z.eqb d 0 then (0%Z, 1%Z, rest) else digits cs 0 0 in
          let frac :=
            match after_int with
            | "." :: r =>
                match digits1 r int_part with
                | inl ((v, n), r') => inl (v, n, r')
                | inr e => inr e
                end
            | _ => inl (int_part, 0%Z, after_int)
            end in
          match frac with
          | inr e => inr e
          | inl (mantissa, frac_len, after_frac) =>
              let finish (ex : Z) (r : list ascii) : presult json :=
                inl (JNumber (if negative then - mantissa else mantissa)
                             (ex - frac_len), r) in
              match after_frac with
              | x :: r =>
                  if (Ascii.eqb x "e" || Ascii.eqb x "E")%bool then
                    let '(sign, r1) :=
                      match r with
                      | "-" :: r1 => (-1, r1)
                      | "+" :: r1 => (1, r1)
                      | _ => (1, r)
                      end in
                    match digits1 r1 0 with
                    | inl ((v, _), r2) => finish (sign * v)%Z r2
                    | inr e => inr e
                    end
                  else finish 0%Z after_frac
              | [] => finish 0%Z after_frac
              end
          end
      end
  end.

(** Values, the elements of an array after its first, and the members of
    an object; [fuel] bounds the depth of the calls. *)
Fixpoint parse_value (fuel : nat) (cs : list ascii) : presult json :=
  match fuel with
  | O => inr BadToken
  | S fuel' =>
      match skip_ws cs with
      | [] => inr EndOfInput
      | c :: rest =>
          if Ascii.eqb c "{" then
            match skip_ws rest with
            | "}" :: r => inl (JObject [], r)
            | _ => parse_members fuel' rest []
            end
          else if Ascii.eqb c "[" then
            match skip_ws rest with
            | "]" :: r => inl (JArray [], r)
            | _ => parse_elements fuel' rest []
            end
          else if Ascii.eqb c dquote then
            match parse_chars rest [] with
            | inl (s, r) => inl (JString s, r)
            | inr e => inr e
            end
          else if Ascii.eqb c "t" then
            match expect ["r"; "u"; "e"] rest with
            | inl (_, r) => inl (JBool true, r)
            | inr e => inr e
            end
          else if Ascii.eqb c "f" then
            match expect ["a"; "l"; "s"; "e"] rest with
            | inl (_, r) => inl (JBool false, r)
            | inr e => inr e
            end
          else if Ascii.eqb c "n" then
            match expect ["u"; "l"; "l"] rest with
            | inl (_, r) => inl (JNull, r)
            | inr e => inr e
            end
          else if Ascii.eqb c "-" then parse_number true rest
          else parse_number false (c :: rest)
      end
  end
with parse_elements (fuel : nat) (cs : list ascii) (acc : list json) : presult json :=
  match fuel with
  | O => inr BadToken
  | S fuel' =>
      match parse_value fuel' cs with
      | inr e => inr e
      | inl (v, r) =>
          match skip_ws r with
          | [] => inr EndOfInput
          | c :: r' =>
              if Ascii.eqb c "," then parse_elements fuel' r' (v :: acc)
              else if Ascii.eqb c "]" then inl (JArray (rev (v :: acc)), r')
              else inr BadToken
          end
      end
  end
with parse_members (fuel : nat) (cs : list ascii) (acc : list (string * json))
    : presult json :=
  match fuel with
  | O => inr BadToken
  | S fuel' =>
      match skip_ws cs with
      | [] => inr EndOfInput
      | q :: r0 =>
          if negb (Ascii.eqb q dquote) then inr BadToken
          else
            match parse_chars r0 [] with
            | inr e => inr e
            | inl (k, r1) =>
                match skip_ws r1 with
                | [] => inr EndOfInput
                | colon :: r2 =>
                    if negb (Ascii.eqb colon ":") then inr BadToken
                    else
                      match parse_value fuel' r2 with
                      | inr e => inr e
                      | inl (v, r3) =>
                          match skip_ws r3 with
                          | [] => inr EndOfInput
                          | c :: r4 =>
                              if Ascii.eqb c ","
                              then parse_members fuel' r4 ((k, v) :: acc)
                              else if Ascii.eqb c "}"
                              then inl (JObject (rev ((k, v) :: acc)), r4)
                              else inr BadToken
                          end
                      end
                end
            end
      end
  end.

(** The message of the [SyntaxError]. ["Unexpected end of JSON input"] is
    the message of V8 for a text that stops too early, and the one message
    [api.ts] compares with; the wording of the other differs from engine to
    engine and version to version, and nothing compares with it. *)
Definition message_of (e : parse_error) : string :=
  match e with
  | EndOfInput => "Unexpected end of JSON input"
  | BadToken => "Unexpected token in JSON"
  end.

(** [JSON.parse]: one value, then white space only. *)
Definition json_parse (s : string) : json + string :=
  let cs := list_ascii_of_string s in
  match parse_value (2 * List.length cs + 2) cs with
  | inr e => inr (message_of e)
  | inl (v, rest) =>
      match skip_ws rest with
      | [] => inl v
      | _ :: _ => inr (message_of BadToken)
      end
  end.

Definition decimal_of_Z (z : Z) : string := NilZero.string_of_int (Z.to_int z).

(** ToBoolean of the Number nearest to [m * 10^e]: [false] for zero, and
    for what rounds to zero, that is up to half the least positive
    Number, [2^-1075]. *)
Definition number_toBoolean (m e : Z) : bool :=
  negb (Z.eqb m 0)
  && negb (Z.ltb e 0 && Z.leb (Z.abs m * 2 ^ 1075) (10 ^ (- e))).

(** ToString of the Number nearest to [m * 10^e] when [m * 10^e] is an
    integer below [2^53] in magnitude: its decimal digits. For the other
    numbers the text is a placeholder, [m] and [e] around an [e]; no
    statement of this file rests on it. *)
Definition number_toString (m e : Z) : string :=
  let whole :=
    if Z.leb 0 e then Some (m * 10 ^ e)
    else if Z.eqb (m mod 10 ^ (- e)) 0 then Some (m / 10 ^ (- e))
    else None in
  match whole with
  | Some v =>
      if Z.ltb (Z.abs v) (2 ^ 53) then decimal_of_Z v
      else decimal_of_Z m +++ "e" +++ decimal_of_Z e
  | None => decimal_of_Z m +++ "e" +++ decimal_of_Z e
  end.

Definition runtime : JSRuntime := {|
  JSON_parse := json_parse;
  Number_toBoolean := number_toBoolean;
  Number_toString := number_toString
|}.

(** ** [cleanJsonString] *)

Fixpoint from_first (c : ascii) (cs : list ascii) : option (list ascii) :=
  match cs with
  | [] => None
  | x :: rest => if Ascii.eqb x c then Some cs else from_first c rest
  end.

Definition is_tag_char (c : ascii) : bool :=
  let n := nat_of_ascii c in
  ((Nat.leb 48 n && Nat.leb n 57) || (Nat.leb 65 n && Nat.leb n 90)
   || (Nat.leb 97 n && Nat.leb n 122))%bool.

Fixpoint skip_tag (cs : list ascii) : list ascii :=
  match cs with
  | c :: rest => if is_tag_char c then skip_tag rest else cs
  | [] => []
  end.

(** A code-fence marker at the start, with its language tag if any. *)
Definition strip_opening_fence (cs : list ascii) : list ascii :=
  match skip_ws cs with
  | "`" :: "`" :: "`" :: rest => skip_ws (skip_tag rest)
  | trimmed => trimmed
  end.

(** A code-fence marker at the end. *)
Definition strip_closing_fence (cs : list ascii) : list ascii :=
  match skip_ws (rev cs) with
  | "`" :: "`" :: "`" :: rest => rev (skip_ws rest)
  | trimmed => rev trimmed
  end.

(** Modelled from the spec: [cleanJsonString] of [./utils], which [api.ts]
    imports and whose source is not available. Section 4.4: strip the
    leading and trailing Markdown code-fence markers (with or without a
    language tag), the prose before the first opening brace and the prose
    after the last closing brace. Text without a brace is left as the
    fences leave it. *)
Definition cleanJsonString (s : string) : string :=
  let unfenced := strip_closing_fence (strip_opening_fence (list_ascii_of_string s)) in
  let from_brace :=
    match from_first "{" unfenced with
    | Some cs => cs
    | None => unfenced
    end in
  let to_brace :=
    match from_first "}" (rev from_brace) with
    | Some cs => rev cs
    | None => from_brace
    end in
  string_of_list_ascii to_brace.
End Reference.

(* ================================================================== *)
(** * The module [openai-api.ts] *)

Module OpenAIApi.

(** [VertexApiConfig], as this module reads it. *)
Record VertexApiConfig : Type := {
  apiBase : string;
  apiKey : string;
  contentModelId : string;
  imageModelId : string
}.

(** The request bodies of this module carry the same inputs as those of
    [api.ts]; its calls are told apart by their address. *)
Section OpenAI.
Context {rt : JSRuntime}.
Variable net : network.

Definition callOpenAIChatAPI (config : VertexApiConfig) (model : string)
    (requestBody : request_body) (timeoutMs : Z) : Eff json :=
  let url := apiBase config +++ "/chat/completions" in
  try_catch
    (r <- fetch net {| req_url := url;
                       req_auth := Some ("Authorization", "Bearer " +++ apiKey config);
                       req_body := requestBody;
                       req_signal := Some timeoutMs |} ;;
     if negb (ok r)
     then throw (Error ("API error: " +++ call_error_message r))
     else response_json r)
    (timeout_or_rethrow timeoutMs).

Definition callOpenAIImageAPI (config : VertexApiConfig) (model : string)
    (requestBody : request_body) (timeoutMs : Z) : Eff json :=
  let url := apiBase config +++ "/images/generations" in
  try_catch
    (r <- fetch net {| req_url := url;
                       req_auth := Some ("Authorization", "Bearer " +++ apiKey config);
                       req_body := requestBody;
                       req_signal := Some timeoutMs |} ;;
     if negb (ok r)
     then throw (Error ("API error: " +++ call_error_message r))
     else response_json r)
    (timeout_or_rethrow timeoutMs).

(** [extractText]: the text, a truthy value. *)
Definition extractText (r : json) : Eff json :=
  choices <- member r "choices" ;;
  let text := choices?.[0]?."message"?."content" in
  match text with
  | Some t => if ToBoolean text then ret t else throw (Error "No text in response")
  | None => throw (Error "No text in response")
  end.

(** [JSON.parse(text)] reads the text through ToString. *)
Definition planPresentationOpenAI (config : VertexApiConfig)
    (document : string) (presentationConfig : PresentationConfig) : Eff json :=
  r <- callOpenAIChatAPI config (contentModelId config)
         (OpenAIPlanBody document presentationConfig) default_timeoutMs ;;
  text <- extractText r ;;
  JSON_parse_or_throw (ToString text).

Definition generateSlideImageOpenAI (config : VertexApiConfig)
    (slide : SlideContent) (deckTitle : string)
    (presentationConfig : PresentationConfig) : Eff string :=
  r <- callOpenAIImageAPI config (imageModelId config)
         (OpenAIImagesBody slide deckTitle presentationConfig) default_timeoutMs ;;
  data <- member r "data" ;;
  let imageData := data?.[0]?."b64_json" in
  if ToBoolean imageData
  then ret ("data:image/png;base64," +++ ToString_value imageData)
  else throw (Error "No image generated").
End OpenAI.
End OpenAIApi.

(* ================================================================== *)
(** * What a stream says, chunk boundaries apart *)

(** The lines of a text that a line feed ends, and what follows the last
    line feed. *)
Definition lines_of (s : string) : list string := fst (Array_pop (split_newline s)).

Definition rest_of (s : string) : string :=
  match snd (Array_pop (split_newline s)) with
  | Some piece => piece
  | None => ""
  end.

Section Readings.
Context {rt : JSRuntime}.

(** The value a line of a Vertex stream adds to the text: the line is a
    [data: ] line, its payload parses to a value other than [null], and
    [candidates[0].content.parts[0].text] is there and truthy. *)
Definition vertex_delta (line : string) : option json :=
  if startsWith line "data: " then
    match JSON_parse (slice 6 line) with
    | inl JNull => None
    | inl parsed =>
        let text := (prop parsed "candidates")?.[0]?."content"?."parts"?.[0]?."text" in
        if ToBoolean text then text else None
    | inr _ => None
    end
  else None.

(** The same for an OpenAI stream: [choices[0].delta.content], and the
    line is not [data: [DONE]]. *)
Definition openai_delta (line : string) : option json :=
  if startsWith line "data: " then
    if String.eqb (slice 6 line) "[DONE]" then None
    else
      match JSON_parse (slice 6 line) with
      | inl JNull => None
      | inl parsed =>
          let content := (prop parsed "choices")?.[0]?."delta"?."content" in
          if ToBoolean content then content else None
      | inr _ => None
      end
  else None.

Definition deltas_of (delta : string -> option json) (lines : list string)
    : list json :=
  flat_map (fun line => match delta line with Some d => [d] | None => [] end) lines.

(** The progress callbacks a direct loop makes for these deltas. *)
Definition progress (onChunk : option callback) (deltas : list json) : list event :=
  match onChunk with
  | Some _ => map EvChunk deltas
  | None => []
  end.

Definition text_of (deltas : list json) : string :=
  String_concat (map ToString deltas).

(** The result a line of the proxy stream delivers: the line is a [data: ]
    line whose payload parses to a record, other than [null], with a
    truthy [done] and a truthy [result]. *)
Definition delivers_result (line : string) : option json :=
  if startsWith line "data: " then
    match JSON_parse (slice 6 line) with
    | inl JNull => None
    | inl parsed =>
        if ToBoolean (prop parsed "done") && ToBoolean (prop parsed "result")
        then prop parsed "result" else None
    | inr _ => None
    end
  else None.

(** The shape of a [NormalizedPlanResult]: an object with a string
    [title] and an array [slides]. *)
Definition has_plan_shape (v : json) : bool :=
  match prop v "title", prop v "slides" with
  | Some (JString _), Some (JArray _) => true
  | _, _ => false
  end.

(** What a line does to the text and to the trace. *)
Definition line_effect (onChunk : option callback) (d : option json)
    (fullText : string) (tr : list event) : list event * outcome string :=
  match d with
  | Some delta =>
      (tr ++ progress onChunk [delta], Returned (fullText +++ ToString delta))
  | None => (tr, Returned fullText)
  end.

(** The message of the timeout error of a call bounded by [timeoutMs]. *)
Definition timeout_message (timeoutMs : Z) : string :=
  "Request timeout after " +++ Number_toString timeoutMs (-3) +++ " seconds".

(** The streaming request of a direct planning call. *)
Definition plan_stream (net : network) (apiConfig : ApiConfig) (document : string)
    (presentationConfig : PresentationConfig) : Eff response :=
  match protocol apiConfig with
  | OPENAI =>
      clientStreamOpenAIAPI net apiConfig (contentModelId apiConfig)
        (OpenAIPlanBody document presentationConfig) default_timeoutMs
  | VERTEX_AI =>
      clientStreamVertexAPI net apiConfig (contentModelId apiConfig)
        (VertexPlanBody document presentationConfig) default_timeoutMs
  end.

(** A part carries an image: its [inlineData.data] is there and truthy. *)
Definition carries_image (part : json) : bool :=
  ToBoolean ((prop part "inlineData")?."data").

(** The data URI of a part: its mime type, ["image/png"] when the part
    names none, and its data. *)
Definition data_uri (part : json) : string :=
  let inlineData := prop part "inlineData" in
  "data:" +++ ToString_value (js_or (inlineData?."mimeType") (Some (JString "image/png")))
  +++ ";base64," +++ ToString_value (inlineData?."data").

(** The parts that [extractImage] goes through:
    [response.candidates?.[0]?.content?.parts || []]. *)
Definition image_parts (response : json) : value :=
  js_or ((prop response "candidates")?.[0]?."content"?."parts") (Some (JArray [])).

Definition no_image (part : json) : Prop :=
  part <> JNull /\ carries_image part = false.
End Readings.

(** The request a direct planning call sends. *)
Definition plan_request (apiConfig : ApiConfig) (document : string)
    (presentationConfig : PresentationConfig) : request :=
  match protocol apiConfig with
  | OPENAI =>
      {| req_url := apiBase apiConfig +++ "/chat/completions";
         req_auth := Some ("Authorization", "Bearer " +++ apiKey apiConfig);
         req_body := OpenAIPlanBody document presentationConfig;
         req_signal := Some default_timeoutMs |}
  | VERTEX_AI =>
      {| req_url := apiBase apiConfig +++ "/models/" +++ contentModelId apiConfig
                    +++ ":streamGenerateContent?alt=sse";
         req_auth := Some ("X-Goog-Api-Key", apiKey apiConfig);
         req_body := VertexPlanBody document presentationConfig;
         req_signal := Some default_timeoutMs |}
  end.

(** The request a direct image call sends. *)
Definition image_request (apiConfig : ApiConfig) (slide : SlideContent)
    (deckTitle : string) (presentationConfig : PresentationConfig) : request :=
  match protocol apiConfig with
  | OPENAI =>
      {| req_url := apiBase apiConfig +++ "/chat/completions";
         req_auth := Some ("Authorization", "Bearer " +++ apiKey apiConfig);
         req_body := OpenAIChatImageBody slide deckTitle presentationConfig;
         req_signal := Some default_timeoutMs |}
  | VERTEX_AI =>
      {| req_url := apiBase apiConfig +++ "/models/" +++ imageModelId apiConfig
                    +++ ":generateContent";
         req_auth := Some ("X-Goog-Api-Key", apiKey apiConfig);
         req_body := VertexImageBody slide deckTitle presentationConfig;
         req_signal := Some default_timeoutMs |}
  end.

(** The requests of the proxied calls. *)
Definition proxy_plan_request (apiConfig : ApiConfig) (document : string)
    (presentationConfig : PresentationConfig) : request :=
  {| req_url := "/api/plan";
     req_auth := None;
     req_body := ProxyPlanBody document presentationConfig apiConfig;
     req_signal := None |}.

Definition proxy_gen_request (apiConfig : ApiConfig) (slide : SlideContent)
    (deckTitle : string) (presentationConfig : PresentationConfig) : request :=
  {| req_url := "/api/gen";
     req_auth := None;
     req_body := ProxyGenBody slide deckTitle presentationConfig apiConfig;
     req_signal := None |}.

(** The request [planPresentationOpenAI] of [openai-api.ts] sends. *)
Definition chat_plan_request (config : OpenAIApi.VertexApiConfig)
    (document : string) (presentationConfig : PresentationConfig) : request :=
  {| req_url := OpenAIApi.apiBase config +++ "/chat/completions";
     req_auth := Some ("Authorization", "Bearer " +++ OpenAIApi.apiKey config);
     req_body := OpenAIPlanBody document presentationConfig;
     req_signal := Some default_timeoutMs |}.

(** The request [generateSlideImageOpenAI] of [openai-api.ts] sends. *)
Definition images_request (config : OpenAIApi.VertexApiConfig)
    (slide : SlideContent) (deckTitle : string)
    (presentationConfig : PresentationConfig) : request :=
  {| req_url := OpenAIApi.apiBase config +++ "/images/generations";
     req_auth := Some ("Authorization", "Bearer " +++ OpenAIApi.apiKey config);
     req_body := OpenAIImagesBody slide deckTitle presentationConfig;
     req_signal := Some default_timeoutMs |}.

(** The transport settles a request before [limit] milliseconds. *)
Definition settles_before (a : transport_answer) (limit : Z) : bool :=
  match a with
  | Resolves t _ => t <? limit
  | Rejects t _ => t <? limit
  | Silent => false
  end.

(** The delta a line yields in the protocol of a configuration. *)
Definition delta_of {rt : JSRuntime} (p : ApiProtocol) : string -> option json :=
  match p with
  | OPENAI => openai_delta
  | VERTEX_AI => vertex_delta
  end.

(* ================================================================== *)
(** * Further readings of a stream *)

(** The text holds no line feed. *)
Fixpoint no_newline (s : string) : bool :=
  match s with
  | EmptyString => true
  | String c rest => negb (Ascii.eqb c newline) && no_newline rest
  end.

Definition is_chunk (e : event) : bool :=
  match e with
  | EvChunk _ => true
  | EvFetch _ => false
  end.

Section ProxyReadings.
Context {rt : JSRuntime}.

(** A line that the proxy loop reads without raising, whatever the callback
    does: it is no [data: ] line, or its payload fails to parse with the one
    message the [catch] lets pass, or it parses to a record, other than
    [null], whose [error] is falsy. *)
Definition proxy_clean (line : string) : bool :=
  if startsWith line "data: " then
    match JSON_parse (slice 6 line) with
    | inl JNull => false
    | inl parsed => negb (ToBoolean (prop parsed "error"))
    | inr message => String.eqb message "Unexpected end of JSON input"
    end
  else true.

(** The truthy [chunk] of the record on a line. *)
Definition proxy_chunk (line : string) : option json :=
  if startsWith line "data: " then
    match JSON_parse (slice 6 line) with
    | inl JNull => None
    | inl parsed =>
        if ToBoolean (prop parsed "chunk") then prop parsed "chunk" else None
    | inr _ => None
    end
  else None.

(** The result the lines leave behind: that of the last line that delivers
    one, [result] when none does. *)
Definition last_result (lines : list string) (result : option json) : option json :=
  fold_left (fun r line => match delivers_result line with
                           | Some v => Some v
                           | None => r
                           end) lines result.

(** The callback, if there is one, returns whenever it is called. *)
Definition returns_always (onChunk : option callback) : Prop :=
  forall cb, onChunk = Some cb -> forall tr arg, cb tr arg = None.
End ProxyReadings.

(* ================================================================== *)
(** * The route of the Gemini proxy *)

(** The server route that answers [POST] with an [action] and a [payload]
    (its source is among the files of the repository, after the plan of the
    token refactoring). It runs on the server: its requests go to the
    Gemini endpoints with the key in the address and no signal. *)
Module GeminiRoute.

(** What an upstream request is built from: the body of a planning request
    from the parsed configuration and the text of the document (of which
    the body holds the first 30000 units), the two image bodies from the
    slide, the deck title and the configuration, the optimising body from
    the prompt. *)
Inductive upstream_body : Type :=
| PlanBody (config : json) (document : string)
| ImagenBody (slide deckTitle config : value)
| GeminiImageBody (slide deckTitle config : value)
| OptimizeBody (prompt : string).

Record upstream_request : Type := {
  url : string;
  upstream : upstream_body
}.

Definition upstream_network : Type := upstream_request -> transport_answer.

(** [NextResponse.json(payload, { status })]. *)
Record next_response : Type := {
  status : Z;
  payload : json
}.

(** A computation of the route: it extends the list of the requests sent
    upstream and returns, throws, or stays pending. *)
Definition Srv (A : Type) : Type :=
  list upstream_request -> list upstream_request * outcome A.

Definition sret {A} (a : A) : Srv A := fun tr => (tr, Returned a).
Definition sthrow {A} (t : thrown) : Srv A := fun tr => (tr, Threw t).

Definition sbind {A B} (m : Srv A) (k : A -> Srv B) : Srv B :=
  fun tr =>
    match m tr with
    | (tr', Returned a) => k a tr'
    | (tr', Threw t) => (tr', Threw t)
    | (tr', Pending) => (tr', Pending)
    end.

Definition stry {A} (m : Srv A) (h : thrown -> Srv A) : Srv A :=
  fun tr =>
    match m tr with
    | (tr', Threw t) => h t tr'
    | r => r
    end.

(** A computation of [api.ts] that sends nothing and calls nothing back
    ([JSON.parse], a property access, [extractImage]), run in the route. *)
Definition lift {A} (m : Eff A) : Srv A := fun tr => (tr, snd (m [])).

Notation "x <~ m ;; k" := (sbind m (fun x => k))
  (at level 61, m at next level, right associativity).

(** [await fetch(url, { method, headers, body })], without a signal. *)
Definition sfetch (net : upstream_network) (req : upstream_request) : Srv response :=
  fun tr =>
    (tr ++ [req],
     match net req with
     | Resolves _ r => Returned r
     | Rejects _ e => Threw e
     | Silent => Pending
     end).

Definition GEMINI_API_BASE : string :=
  "https://generativelanguage.googleapis.com/v1beta".

Definition failure (message : string) : json :=
  JObject [("success", JBool false); ("error", JString message)].

Definition success (content : json) : json :=
  JObject [("success", JBool true); ("data", JObject [("content", content)])].

Definition respond (code : Z) (body : json) : next_response :=
  {| status := code; payload := body |}.

Section Route.
Context {rt : JSRuntime}.
Variable net : upstream_network.

(** [getApiKey]: the [x-api-key] header, or [GEMINI_API_KEY] when the
    header is missing or empty. *)
Definition getApiKey (headerKey envKey : option string) : Srv string :=
  let apiKey :=
    match headerKey with
    | Some k => if String.eqb k "" then envKey else Some k
    | None => envKey
    end in
  match apiKey with
  | Some k =>
      if String.eqb k ""
      then sthrow (Error "API key not configured. Please add GEMINI_API_KEY to .env.local")
      else sret k
  | None =>
      sthrow (Error "API key not configured. Please add GEMINI_API_KEY to .env.local")
  end.

Definition callGeminiAPI (apiKey : string) (model : json)
    (requestBody : upstream_body) : Srv json :=
  let address := GEMINI_API_BASE +++ "/models/" +++ ToString model
                 +++ ":generateContent?key=" +++ apiKey in
  r <~ sfetch net {| url := address; upstream := requestBody |} ;;
  if negb (ok r)
  then sthrow (Error ("Gemini API error: " +++ call_error_message r))
  else lift (response_json r).

(** [extractText] of the route: [candidates[0].content.parts[0].text]. *)
Definition extractText (r : json) : Eff json :=
  candidates <- member r "candidates" ;;
  let text := candidates?.[0]?."content"?."parts"?.[0]?."text" in
  match text with
  | Some t => if ToBoolean text then ret t else throw (Error "No text in response")
  | None => throw (Error "No text in response")
  end.

(** [const { k, ... } = base], for the first name of the pattern: a
    [TypeError] when [base] is [null]. The names that the route reads
    ([action], [payload], [document], [prompt], [model], [slide],
    [deckTitle], [config], [style], [title], [predictions],
    [bytesBase64Encoded]) are, as those of [prop], no property of an array,
    a string, a number or a boolean. *)
Definition destructure (base : json) (name k : string) : Eff value :=
  match base with
  | JNull =>
      throw (TypeError ("Cannot destructure property '" +++ k +++ "' of '"
                          +++ name +++ "' as it is null."))
  | _ => ret (prop base k)
  end.

(** A destructuring default: [{ model = d } = payload]. *)
Definition or_default (v : value) (d : string) : json :=
  match v with
  | Some m => m
  | None => JString d
  end.

(** [(document || '').substring(0, 30000)]: the text that is cut; a truthy
    document that is no string has no [substring]. *)
Definition document_text (document : value) : Srv string :=
  if ToBoolean document then
    match document with
    | Some (JString s) => sret s
    | _ => sthrow (TypeError "(document || '').substring is not a function")
    end
  else sret "".

Definition handlePlanPresentation (apiKey : string) (payload : json)
    : Srv next_response :=
  let document := prop payload "document" in
  let prompt := prop payload "prompt" in
  let model := or_default (prop payload "model") "gemini-2.5-flash" in
  if negb (ToBoolean document) && negb (ToBoolean prompt)
  then sret (respond 400 (failure "Missing document or prompt"))
  else if negb (ToBoolean prompt)
  then sret (respond 400 (failure "Missing prompt"))
  else
    config <~ lift (JSON_parse_or_throw (ToString_value prompt)) ;;
    style <~ lift (member config "style") ;;
    text <~ document_text document ;;
    r <~ callGeminiAPI apiKey model (PlanBody config text) ;;
    content <~ lift (extractText r) ;;
    sret (respond 200 (success content)).

Definition imagen_request (apiKey : string) (slide deckTitle config : value)
    : upstream_request :=
  {| url := GEMINI_API_BASE +++ "/models/imagen-3.0-generate-002:predict?key="
            +++ apiKey;
     upstream := ImagenBody slide deckTitle config |}.

Definition handleGenerateImage (apiKey : string) (payload : json)
    : Srv next_response :=
  let prompt := prop payload "prompt" in
  let model := or_default (prop payload "model") "gemini-2.0-flash-exp" in
  if negb (ToBoolean prompt)
  then sret (respond 400 (failure "Missing prompt"))
  else
    data <~ lift (JSON_parse_or_throw (ToString_value prompt)) ;;
    slide <~ lift (destructure data "data" "slide") ;;
    let deckTitle := prop data "deckTitle" in
    let config := prop data "config" in
    style <~ lift (member_of_value config "style") ;;
    title <~ lift (member_of_value slide "title") ;;
    r <~ sfetch net (imagen_request apiKey slide deckTitle config) ;;
    if negb (ok r) then
      g <~ callGeminiAPI apiKey model (GeminiImageBody slide deckTitle config) ;;
      imageData <~ lift (extractImage g) ;;
      match imageData with
      | Some uri =>
          if String.eqb uri "" then sthrow (Error "No image generated")
          else sret (respond 200 (success (JString uri)))
      | None => sthrow (Error "No image generated")
      end
    else
      result <~ lift (response_json r) ;;
      predictions <~ lift (member result "predictions") ;;
      let imageBase64 := predictions?.[0]?."bytesBase64Encoded" in
      if ToBoolean imageBase64
      then sret (respond 200 (success (JString ("data:image/png;base64,"
                                                +++ ToString_value imageBase64))))
      else sthrow (Error "No image generated").

Definition handleOptimizeContent (apiKey : string) (payload : json)
    : Srv next_response :=
  let prompt := prop payload "prompt" in
  let model := or_default (prop payload "model") "gemini-2.5-flash" in
  if negb (ToBoolean prompt)
  then sret (respond 400 (failure "Missing prompt"))
  else
    r <~ callGeminiAPI apiKey model (OptimizeBody (ToString_value prompt)) ;;
    content <~ lift (extractText r) ;;
    sret (respond 200 (success content)).

(** [switch (action)]: the action as a string, when it is one. *)
Definition action_name (action : value) : option string :=
  match action with
  | Some (JString s) => Some s
  | _ => None
  end.

(** [POST]: [headerKey] is the [x-api-key] header of the request, [envKey]
    the variable [GEMINI_API_KEY], [body] the text of the request. *)
Definition POST (headerKey envKey : option string) (body : string)
    : Srv next_response :=
  stry
    (apiKey <~ getApiKey headerKey envKey ;;
     parsed <~ lift (JSON_parse_or_throw body) ;;
     action <~ lift (destructure parsed "body" "action") ;;
     let payload := prop parsed "payload" in
     match payload with
     | Some p =>
         if negb (ToBoolean action) || negb (ToBoolean payload)
         then sret (respond 400 (failure "Missing action or payload"))
         else
           match action_name action with
           | Some name =>
               if String.eqb name "plan-presentation"
               then handlePlanPresentation apiKey p
               else if String.eqb name "generate-image"
               then handleGenerateImage apiKey p
               else if String.eqb name "optimize-content"
               then handleOptimizeContent apiKey p
               else sret (respond 400 (failure ("Unknown action: "
                                                +++ ToString_value action)))
           | None =>
               sret (respond 400 (failure ("Unknown action: "
                                           +++ ToString_value action)))
           end
     | None => sret (respond 400 (failure "Missing action or payload"))
     end)
    (fun error =>
       sret (respond 500 (failure match error with
                                  | ErrorObj _ message => message
                                  | NonError => "Internal server error"
                                  end))).
End Route.

(** ** What the route answers and sends *)

(** An answer of the route: a success with status 200 and a content, or a
    failure with status 400 or 500 and a message. *)
Definition reports (resp : next_response) : Prop :=
  (status resp = 200 /\ exists content, payload resp = success content)
  \/ ((status resp = 400 \/ status resp = 500)
      /\ exists message, payload resp = failure message).

(** The address of the request ends with the key. *)
Definition carries_key (apiKey : string) (req : upstream_request) : Prop :=
  exists model, url req = GEMINI_API_BASE +++ "/models/" +++ model +++ "?key=" +++ apiKey.

(** The [catch] of [POST] on what a handler does. *)
Definition answered (run : list upstream_request * outcome next_response)
    : list upstream_request * outcome next_response :=
  match run with
  | (tr, Threw error) =>
      (tr, Returned (respond 500 (failure match error with
                                          | ErrorObj _ message => message
                                          | NonError => "Internal server error"
                                          end)))
  | other => other
  end.

(** A computation that has sent, when it is over, at most [n] requests, all
    of them with the key. *)
Definition sends_at_most {A} (n : nat) (apiKey : string) (m : Srv A) : Prop :=
  forall tr, exists sent,
    fst (m tr) = tr ++ sent
    /\ Forall (carries_key apiKey) sent
    /\ (List.length sent <= n)%nat.

(** A computation that answers with status 400 only when it has sent
    nothing, and with status 200 only when it has sent a request. *)
Definition refuses_before_sending (m : Srv next_response) : Prop :=
  forall tr,
    match m tr with
    | (tr', Returned resp) =>
        (status resp = 400 /\ tr' = tr)
        \/ (status resp = 200 /\ exists req sent, tr' = tr ++ req :: sent)
    | _ => True
    end.

(** A computation that answers with status 200 only. *)
Definition answers_success (m : Srv next_response) : Prop :=
  forall tr,
    match m tr with
    | (tr', Returned resp) => status resp = 200 /\ exists sent, tr' = tr ++ sent
    | _ => True
    end.
End GeminiRoute.

(* ================================================================== *)
(** * Sample inputs *)

(** JSON text is written below with apostrophes for its quotation marks. *)
Definition q (s : string) : string :=
  string_of_list_ascii
    (map (fun c => if Ascii.eqb c "'"%char then Reference.dquote else c)
         (list_ascii_of_string s)).

(** The text of a stream made of these lines, a line feed after each. *)
Definition sse (lines : list string) : string :=
  String_concat (map (fun line => line +++ String newline "") lines).

Definition sample_config (p : ApiProtocol) (m : RequestMode) : ApiConfig :=
  {| protocol := p;
     requestMode := m;
     apiBase := "https://llm.example/v1";
     apiKey := "secret";
     contentModelId := "content-model";
     imageModelId := "image-model" |}.

(** A transport that answers every request, after a quarter of a second,
    with a successful response of this body; and one that never answers. *)
Definition answering (chunks : list string) : network :=
  fun _ => Resolves 250 {| ok := true; statusText := "OK"; body := Some chunks |}.

Definition silent : network := fun _ => Silent.

(** A callback that returns. *)
Definition quiet : callback := fun _ _ => None.

Definition vertex_event (text : string) : string :=
  q ("data: {'candidates':[{'content':{'parts':[{'text':'" +++ text +++ "'}]}}]}").

Definition openai_event (text : string) : string :=
  q ("data: {'choices':[{'delta':{'content':'" +++ text +++ "'}}]}").

(** A transport that refuses every request with this status text and body,
    one that rejects every request, and one whose successful response has
    no body. *)
Definition refusing (status_text body_text : string) : network :=
  fun _ => Resolves 250 {| ok := false; statusText := status_text;
                           body := Some [body_text] |}.

Definition rejecting (e : thrown) : network := fun _ => Rejects 250 e.

Definition bodiless : network :=
  fun _ => Resolves 250 {| ok := true; statusText := "OK"; body := None |}.

(** A configuration of [openai-api.ts]. *)
Definition compatible_config : OpenAIApi.VertexApiConfig :=
  {| OpenAIApi.apiBase := "https://llm.example/v1";
     OpenAIApi.apiKey := "secret";
     OpenAIApi.contentModelId := "content-model";
     OpenAIApi.imageModelId := "image-model" |}.

(** A callback that throws. *)
Definition failing_callback : callback :=
  fun _ _ => Some (Error "the view is gone").

(** An upstream that answers every request with this status and body. *)
Definition upstream_answering (fine : bool) (text : string)
    : GeminiRoute.upstream_network :=
  fun _ => Resolves 40 {| ok := fine;
                          statusText := if fine then "OK" else "Bad Gateway";
                          body := Some [text] |}.

(** An upstream on which Imagen is refused and Gemini answers. *)
Definition upstream_without_imagen (text : string)
    : GeminiRoute.upstream_network :=
  fun req =>
    match GeminiRoute.upstream req with
    | GeminiRoute.ImagenBody _ _ _ =>
        Resolves 40 {| ok := false; statusText := "Not Found"; body := Some [""] |}
    | _ => Resolves 40 {| ok := true; statusText := "OK"; body := Some [text] |}
    end.

(** The payload of an image request of the route. *)
Definition image_payload : json :=
  JObject [("prompt",
            JString (q "{'slide':{'title':'S'},'deckTitle':'D','config':{}}"))].

(* ================================================================== *)
(** * Lemmas on strings and lines *)

Lemma append_empty_r (s : string) : s +++ "" = s.
Proof. induction s as [|c s IH]; simpl; [reflexivity | now rewrite IH]. Qed.

Lemma append_assoc (a b c : string) : (a +++ b) +++ c = a +++ (b +++ c).
Proof. induction a as [|x a IH]; simpl; [reflexivity | now rewrite IH]. Qed.

Lemma String_concat_app (l1 l2 : list string) :
  String_concat (l1 ++ l2) = String_concat l1 +++ String_concat l2.
Proof.
  induction l1 as [|x l1 IH]; simpl; [reflexivity|].
  now rewrite IH, append_assoc.
Qed.

Lemma split_newline_not_nil (s : string) : split_newline s <> [].
Proof.
  destruct s as [|c s]; simpl; [discriminate|].
  destruct (Ascii.eqb c newline); [discriminate|].
  destruct (split_newline s); discriminate.
Qed.

Lemma Array_pop_cons {A} (x : A) (l : list A) :
  l <> [] -> Array_pop (x :: l) = (x :: fst (Array_pop l), snd (Array_pop l)).
Proof.
  intros Hl. destruct l as [|y l]; [congruence|].
  change (Array_pop (x :: y :: l))
    with (let (front, last) := Array_pop (y :: l) in (x :: front, last)).
  now destruct (Array_pop (y :: l)).
Qed.

Lemma Array_pop_app {A} (l1 l2 : list A) :
  l2 <> [] ->
  Array_pop (l1 ++ l2) = (l1 ++ fst (Array_pop l2), snd (Array_pop l2)).
Proof.
  intros Hl2. induction l1 as [|x l1 IH]; simpl app.
  - now destruct (Array_pop l2).
  - rewrite Array_pop_cons, IH; [reflexivity|].
    destruct l1; simpl; [assumption | discriminate].
Qed.

Lemma Array_pop_spec {A} (l : list A) :
  l <> [] -> exists x, snd (Array_pop l) = Some x /\ l = fst (Array_pop l) ++ [x].
Proof.
  induction l as [|y l IH]; [congruence|]. intros _.
  destruct l as [|z l].
  - exists y. split; reflexivity.
  - destruct IH as (x & Hx & Hl); [discriminate|].
    exists x. rewrite Array_pop_cons by discriminate. cbn [fst snd].
    split; [assumption|]. now rewrite <- app_comm_cons, <- Hl.
Qed.

(** A text splits into its complete lines and its unfinished rest. *)
Lemma split_newline_lines_rest (s : string) :
  split_newline s = lines_of s ++ [rest_of s].
Proof.
  unfold lines_of, rest_of.
  destruct (Array_pop_spec (split_newline s) (split_newline_not_nil s))
    as (x & Hx & Hl).
  now rewrite Hx.
Qed.

(** Reading on: the lines of [a +++ b] are those of [a], then those of the
    rest of [a] continued by [b]. *)
Lemma split_newline_app (a b : string) :
  split_newline (a +++ b) = lines_of a ++ split_newline (rest_of a +++ b).
Proof.
  unfold lines_of, rest_of.
  induction a as [|c a IH]; [reflexivity|].
  cbn [split_newline String.append].
  destruct (Ascii.eqb c newline) eqn:Ec.
  - rewrite Array_pop_cons by apply split_newline_not_nil.
    cbn [fst snd]. now rewrite IH.
  - rewrite IH. clear IH.
    destruct (split_newline a) as [|piece pieces] eqn:E.
    + now destruct (split_newline_not_nil a).
    + destruct pieces as [|p2 pieces].
      * cbn [Array_pop fst snd app String.append split_newline]. now rewrite Ec.
      * rewrite (Array_pop_cons piece), (Array_pop_cons (String c piece))
          by discriminate.
        reflexivity.
Qed.

Lemma lines_of_app (a b : string) :
  lines_of (a +++ b) = lines_of a ++ lines_of (rest_of a +++ b).
Proof.
  unfold lines_of at 1. rewrite split_newline_app.
  rewrite Array_pop_app by apply split_newline_not_nil. reflexivity.
Qed.

Lemma rest_of_app (a b : string) :
  rest_of (a +++ b) = rest_of (rest_of a +++ b).
Proof.
  unfold rest_of at 1. rewrite split_newline_app.
  rewrite Array_pop_app by apply split_newline_not_nil. reflexivity.
Qed.

Lemma lines_of_rest_of (s : string) : lines_of (rest_of s) = [].
Proof.
  pose proof (lines_of_app s "") as H.
  rewrite !append_empty_r in H.
  rewrite <- (app_nil_r (lines_of s)) in H at 1.
  now apply app_inv_head in H.
Qed.

Lemma rest_of_rest_of (s : string) : rest_of (rest_of s) = rest_of s.
Proof.
  pose proof (rest_of_app s "") as H. now rewrite !append_empty_r in H.
Qed.

(* ================================================================== *)
(** * Lemmas on computations *)

Ltac run_eff m tr :=
  let tr' := fresh "tr'" in
  let o := fresh "o" in
  let E := fresh "E" in
  destruct (m tr) as [tr' o] eqn:E; destruct o.

Lemma bind_assoc {A B C} (m : Eff A) (k1 : A -> Eff B) (k2 : B -> Eff C)
    (tr : list event) :
  (y <- (x <- m ;; k1 x) ;; k2 y) tr = (x <- m ;; y <- k1 x ;; k2 y) tr.
Proof. unfold bind. now run_eff m tr. Qed.

Lemma bind_ext {A B} (m : Eff A) (k k' : A -> Eff B) (tr : list event) :
  (forall a tr', k a tr' = k' a tr') ->
  (x <- m ;; k x) tr = (x <- m ;; k' x) tr.
Proof. intros H. unfold bind. run_eff m tr; auto. Qed.

Lemma for_of_app {A S} (f : A -> S -> Eff S) (l1 l2 : list A) (s : S)
    (tr : list event) :
  for_of f (l1 ++ l2) s tr = (s' <- for_of f l1 s ;; for_of f l2 s') tr.
Proof.
  revert s tr. induction l1 as [|x l1 IH]; intros s tr; [reflexivity|].
  cbn [app for_of]. rewrite bind_assoc. apply bind_ext. intros; apply IH.
Qed.

Lemma read_chunk_lines {S} (h : string -> S -> Eff S) (chunk buffer : string)
    (s : S) (tr : list event) :
  read_chunk h chunk (buffer, s) tr =
  (s' <- for_of h (lines_of (buffer +++ chunk)) s ;;
   ret (rest_of (buffer +++ chunk), s')) tr.
Proof.
  unfold read_chunk, lines_of, rest_of.
  now destruct (Array_pop (split_newline (buffer +++ chunk))).
Qed.

(** The chunks of a stream are read as one text: the handler sees the
    complete lines of their concatenation, wherever the chunks end. *)
Lemma for_of_read_chunk {S} (h : string -> S -> Eff S) (chunks : list string)
    (pre : string) (s : S) (tr : list event) :
  for_of (read_chunk h) chunks (rest_of pre, s) tr =
  (s' <- for_of h (lines_of (rest_of pre +++ String_concat chunks)) s ;;
   ret (rest_of (pre +++ String_concat chunks), s')) tr.
Proof.
  revert pre s tr. induction chunks as [|c chunks IH]; intros pre s tr.
  - cbn [for_of String_concat fold_right].
    now rewrite !append_empty_r, lines_of_rest_of.
  - cbn [for_of String_concat fold_right].
    fold (String_concat chunks).
    rewrite <- (append_assoc (rest_of pre)), <- (append_assoc pre).
    rewrite lines_of_app.
    unfold bind at 1. rewrite read_chunk_lines.
    unfold bind. rewrite for_of_app. unfold bind.
    run_eff (for_of h (lines_of (rest_of pre +++ c)) s) tr; cbn [ret]; trivial.
    rewrite <- rest_of_app. rewrite IH. reflexivity.
Qed.

Lemma read_stream_lines {S} (h : string -> S -> Eff S) (chunks : list string)
    (s : S) (tr : list event) :
  read_stream h chunks s tr = for_of h (lines_of (String_concat chunks)) s tr.
Proof.
  unfold read_stream.
  change "" with (rest_of "") at 1.
  unfold bind at 1. rewrite for_of_read_chunk.
  cbn [rest_of String.append]. change (rest_of "" +++ ?x) with x.
  unfold bind.
  now run_eff (for_of h (lines_of (String_concat chunks)) s) tr.
Qed.

(* ================================================================== *)
(** * The direct loops *)

Section DirectLoops.
Context {rt : JSRuntime}.

Lemma progress_app (onChunk : option callback) (d1 d2 : list json) :
  progress onChunk (d1 ++ d2) = progress onChunk d1 ++ progress onChunk d2.
Proof. destruct onChunk; simpl; [apply map_app | reflexivity]. Qed.

Lemma text_of_app (d1 d2 : list json) :
  text_of (d1 ++ d2) = text_of d1 +++ text_of d2.
Proof. unfold text_of. now rewrite map_app, String_concat_app. Qed.

Lemma deltas_of_app (delta : string -> option json) (l1 l2 : list string) :
  deltas_of delta (l1 ++ l2) = deltas_of delta l1 ++ deltas_of delta l2.
Proof. apply flat_map_app. Qed.

Lemma accumulate_run (onChunk : option callback) (delta : json)
    (fullText : string) (tr : list event) :
  accumulate onChunk delta fullText tr =
  (tr ++ progress onChunk [delta], Returned (fullText +++ ToString delta)).
Proof.
  unfold accumulate, try_catch, bind, call_onChunk, call, ret.
  destruct onChunk as [cb|]; cbn [progress map].
  - now destruct (cb tr delta).
  - now rewrite app_nil_r.
Qed.

Lemma vertex_line_run (onChunk : option callback) (line fullText : string)
    (tr : list event) :
  vertex_line onChunk line fullText tr =
  line_effect onChunk (vertex_delta line) fullText tr.
Proof.
  unfold vertex_line, vertex_delta, line_effect.
  destruct (startsWith line "data: "); [|reflexivity].
  unfold try_catch, bind, JSON_parse_or_throw.
  destruct (JSON_parse (slice 6 line)) as [parsed|message]; [|reflexivity].
  destruct parsed; try reflexivity;
    cbn [member ret throw];
    match goal with
    | |- context [ToBoolean ?t] =>
        destruct t as [delta|] eqn:Et; [|reflexivity];
        destruct (ToBoolean (Some delta)); [|reflexivity];
        rewrite accumulate_run; reflexivity
    end.
Qed.

Lemma openai_line_run (onChunk : option callback) (line fullText : string)
    (tr : list event) :
  openai_line onChunk line fullText tr =
  line_effect onChunk (openai_delta line) fullText tr.
Proof.
  unfold openai_line, openai_delta, line_effect.
  destruct (startsWith line "data: "); [|reflexivity].
  destruct (String.eqb (slice 6 line) "[DONE]"); [reflexivity|].
  unfold try_catch, bind, JSON_parse_or_throw.
  destruct (JSON_parse (slice 6 line)) as [parsed|message]; [|reflexivity].
  destruct parsed; try reflexivity;
    cbn [member ret throw];
    match goal with
    | |- context [ToBoolean ?t] =>
        destruct t as [delta|] eqn:Et; [|reflexivity];
        destruct (ToBoolean (Some delta)); [|reflexivity];
        rewrite accumulate_run; reflexivity
    end.
Qed.

(** A loop whose lines act through [line_effect] appends the deltas of
    its lines in order, and reports each to the callback in that order. *)
Lemma for_of_line_effect (onChunk : option callback)
    (h : string -> string -> Eff string) (delta : string -> option json) :
  (forall line fullText tr,
      h line fullText tr = line_effect onChunk (delta line) fullText tr) ->
  forall lines fullText tr,
    for_of h lines fullText tr =
    (tr ++ progress onChunk (deltas_of delta lines),
     Returned (fullText +++ text_of (deltas_of delta lines))).
Proof.
  intros Hh lines. induction lines as [|line lines IH]; intros fullText tr.
  - destruct onChunk; cbn; now rewrite app_nil_r, append_empty_r.
  - cbn [for_of]. unfold bind. rewrite Hh.
    change (deltas_of delta (line :: lines))
      with ((match delta line with Some d => [d] | None => [] end)
              ++ deltas_of delta lines).
    rewrite progress_app, text_of_app.
    destruct (delta line) as [d|]; cbn [line_effect]; rewrite IH.
    + rewrite <- app_assoc, append_assoc.
      unfold text_of at 2. cbn [map String_concat fold_right].
      now rewrite append_empty_r.
    + destruct onChunk; reflexivity.
Qed.

Lemma direct_line_run (p : ApiProtocol) (onChunk : option callback)
    (line fullText : string) (tr : list event) :
  match p with
  | OPENAI => openai_line onChunk
  | VERTEX_AI => vertex_line onChunk
  end line fullText tr = line_effect onChunk (delta_of p line) fullText tr.
Proof. destruct p; [apply vertex_line_run | apply openai_line_run]. Qed.

(** The loop of a direct planning call, on the chunks of a body. *)
Lemma direct_stream_run (p : ApiProtocol) (onChunk : option callback)
    (chunks : list string) (tr : list event) :
  let deltas := deltas_of (delta_of p) (lines_of (String_concat chunks)) in
  read_stream match p with
              | OPENAI => openai_line onChunk
              | VERTEX_AI => vertex_line onChunk
              end chunks "" tr =
  (tr ++ progress onChunk deltas, Returned (text_of deltas)).
Proof.
  intros deltas. rewrite read_stream_lines.
  now rewrite (for_of_line_effect onChunk _ (delta_of p) (direct_line_run p onChunk)).
Qed.
End DirectLoops.

(* ================================================================== *)
(** * The requests of the direct calls *)

Section DirectCalls.
Context {rt : JSRuntime}.
Variable cleanJsonString : string -> string.
Variable net : network.

(** A request under a signal that the transport does not settle in time
    ends in the timeout error, whatever was to follow. *)
Lemma guarded_fetch_timeout {A} (req : request) (limit : Z)
    (k : response -> Eff A) (tr : list event) :
  req_signal req = Some limit ->
  settles_before (net req) limit = false ->
  try_catch (r <- fetch net req ;; k r) (timeout_or_rethrow limit) tr =
  (tr ++ [EvFetch req], Threw (Error (timeout_message limit))).
Proof.
  intros Hsig Hlate. unfold try_catch, bind, fetch. rewrite Hsig.
  destruct (net req) as [t r|t e|]; cbn [settles_before] in Hlate;
    try rewrite Hlate; reflexivity.
Qed.

(** A request that the transport resolves in time goes on with the
    response. *)
Lemma guarded_fetch_resolved {A} (req : request) (limit t : Z) (r : response)
    (k : response -> Eff A) (tr : list event) :
  req_signal req = Some limit ->
  net req = Resolves t r ->
  (t <? limit) = true ->
  try_catch (x <- fetch net req ;; k x) (timeout_or_rethrow limit) tr =
  try_catch (k r) (timeout_or_rethrow limit) (tr ++ [EvFetch req]).
Proof.
  intros Hsig Hnet Ht. unfold try_catch, bind, fetch.
  now rewrite Hsig, Hnet, Ht.
Qed.

Lemma planPresentationClientDirect_unfold (document : string)
    (presentationConfig : PresentationConfig) (apiConfig : ApiConfig)
    (onChunk : option callback) (tr : list event) :
  planPresentationClientDirect cleanJsonString net document presentationConfig
    apiConfig onChunk tr =
  (r <- plan_stream net apiConfig document presentationConfig ;;
   reader <- getReader r ;;
   fullText <- read_stream match protocol apiConfig with
                           | OPENAI => openai_line onChunk
                           | VERTEX_AI => vertex_line onChunk
                           end reader "" ;;
   JSON_parse_or_throw (cleanJsonString fullText)) tr.
Proof.
  unfold planPresentationClientDirect, plan_stream.
  destruct (protocol apiConfig); rewrite !bind_assoc;
    apply bind_ext; intros; rewrite !bind_assoc; reflexivity.
Qed.

Lemma plan_stream_timeout (apiConfig : ApiConfig) (document : string)
    (presentationConfig : PresentationConfig) (tr : list event) :
  settles_before (net (plan_request apiConfig document presentationConfig))
    default_timeoutMs = false ->
  plan_stream net apiConfig document presentationConfig tr =
  (tr ++ [EvFetch (plan_request apiConfig document presentationConfig)],
   Threw (Error (timeout_message default_timeoutMs))).
Proof.
  unfold plan_stream, plan_request.
  destruct (protocol apiConfig); intros Hlate;
    now apply guarded_fetch_timeout.
Qed.

Lemma plan_stream_resolved (apiConfig : ApiConfig) (document : string)
    (presentationConfig : PresentationConfig) (t : Z) (r : response)
    (tr : list event) :
  net (plan_request apiConfig document presentationConfig) = Resolves t r ->
  (t <? default_timeoutMs) = true ->
  ok r = true ->
  plan_stream net apiConfig document presentationConfig tr =
  (tr ++ [EvFetch (plan_request apiConfig document presentationConfig)],
   Returned r).
Proof.
  unfold plan_stream, plan_request.
  destruct (protocol apiConfig); intros Hnet Ht Hok;
    (unfold clientStreamVertexAPI, clientStreamOpenAIAPI;
     erewrite guarded_fetch_resolved by (try reflexivity; eassumption);
     now rewrite Hok).
Qed.

(** A direct planning call whose request is answered in time by a
    successful response with a body: the callbacks it makes and what it
    returns or throws. *)
Lemma planPresentationClientDirect_answered (document : string)
    (presentationConfig : PresentationConfig) (apiConfig : ApiConfig)
    (onChunk : option callback) (t : Z) (r : response) (chunks : list string)
    (tr : list event) :
  net (plan_request apiConfig document presentationConfig) = Resolves t r ->
  (t <? default_timeoutMs) = true ->
  ok r = true ->
  body r = Some chunks ->
  let deltas :=
    deltas_of (delta_of (protocol apiConfig)) (lines_of (String_concat chunks)) in
  planPresentationClientDirect cleanJsonString net document presentationConfig
    apiConfig onChunk tr =
  ((tr ++ [EvFetch (plan_request apiConfig document presentationConfig)])
     ++ progress onChunk deltas,
   match JSON_parse (cleanJsonString (text_of deltas)) with
   | inl v => Returned v
   | inr message => Threw (SyntaxError message)
   end).
Proof.
  intros Hnet Ht Hok Hbody deltas.
  rewrite planPresentationClientDirect_unfold.
  unfold bind at 1. rewrite (plan_stream_resolved _ _ _ t r) by assumption.
  unfold bind at 1, getReader at 1. rewrite Hbody. cbn [ret].
  unfold bind. rewrite direct_stream_run. fold deltas.
  unfold JSON_parse_or_throw.
  now destruct (JSON_parse (cleanJsonString (text_of deltas))).
Qed.
End DirectCalls.

(* ================================================================== *)
(** * Properties of the facade and of the direct path *)

Section Facade.
Context {rt : JSRuntime}.
Variable cleanJsonString : string -> string.
Variable net : network.

(** C8: with no API configuration present, [planPresentation] and
    [generateSlideImage] both raise the configuration error
    ["API not configured"], and the trace is left as it was: no request has
    been sent, no callback made. *)
Theorem facade_requires_configuration :
  forall (document : string) (presentationConfig : PresentationConfig)
         (onChunk : option callback) (slide : SlideContent) (deckTitle : string)
         (tr : list event),
    planPresentation cleanJsonString net None document presentationConfig onChunk tr
    = (tr, Threw (Error "API not configured"))
    /\ generateSlideImage net None slide deckTitle presentationConfig tr
       = (tr, Threw (Error "API not configured")).
Proof. intros. split; reflexivity. Qed.

(** C10: what a direct planning call returns or throws does not depend on
    the progress callback: supplied or omitted, returning or throwing, the
    outcome is the same for the same configuration, document and network. *)
Theorem direct_result_independent_of_callback :
  forall (document : string) (presentationConfig : PresentationConfig)
         (apiConfig : ApiConfig) (onChunk onChunk' : option callback)
         (tr : list event),
    snd (planPresentationClientDirect cleanJsonString net document
           presentationConfig apiConfig onChunk tr)
    = snd (planPresentationClientDirect cleanJsonString net document
             presentationConfig apiConfig onChunk' tr).
Proof.
  intros. rewrite !planPresentationClientDirect_unfold.
  unfold bind, getReader.
  destruct (plan_stream net apiConfig document presentationConfig tr)
    as [tr1 [r|t|]]; try reflexivity.
  destruct (body r) as [chunks|]; cbn [ret throw]; [|reflexivity].
  rewrite !direct_stream_run.
  unfold JSON_parse_or_throw, ret, throw.
  now destruct (JSON_parse _).
Qed.

End Facade.

(* ================================================================== *)
(** * The proxy loop *)

Section ProxyLoop.
Context {rt : JSRuntime}.

Lemma proxy_catch_returned {A} (keep x : A) (e : thrown) (tr tr' : list event) :
  proxy_catch keep e tr = (tr', Returned x) -> x = keep /\ tr' = tr.
Proof.
  unfold proxy_catch, throw, ret. destruct e as [name message|].
  - destruct (negb _); intros H; inversion H; auto.
  - intros H; inversion H; auto.
Qed.

(** A [data: ] line whose payload does not parse: the [SyntaxError] is
    swallowed when its message is ["Unexpected end of JSON input"], and
    leaves the loop otherwise. *)
Lemma proxy_line_unparsable (onChunk : option callback) (line message : string)
    (result : option json) (tr : list event) :
  startsWith line "data: " = true ->
  JSON_parse (slice 6 line) = inr message ->
  proxy_line onChunk line result tr =
  (tr, if String.eqb message "Unexpected end of JSON input"
       then Returned result
       else Threw (SyntaxError message)).
Proof.
  intros Hdata Hparse. unfold proxy_line. rewrite Hdata.
  unfold try_catch, bind, JSON_parse_or_throw. rewrite Hparse.
  cbn [throw proxy_catch SyntaxError].
  now destruct (String.eqb message "Unexpected end of JSON input").
Qed.

Lemma member_not_null (parsed : json) (k : string) :
  parsed <> JNull -> member parsed k = ret (prop parsed k).
Proof. destruct parsed; try reflexivity. congruence. Qed.

(** The [try] block of the proxy loop on a record that is not [null]: when
    the loop goes on, [result] is as it was, or it is the truthy [result] of
    a record whose [done] is truthy. *)
Lemma proxy_record_returned (onChunk : option callback) (parsed : json)
    (result result' : option json) (tr tr' : list event) :
  parsed <> JNull ->
  try_catch
    (error <- member parsed "error" ;;
     (if ToBoolean error then throw (Error (ToString_value error)) else ret tt) ;;
     chunk <- member parsed "chunk" ;;
     match chunk, onChunk with
     | Some c, Some cb => if ToBoolean chunk then call cb c else ret tt
     | _, _ => ret tt
     end ;;
     done <- member parsed "done" ;;
     res <- member parsed "result" ;;
     if ToBoolean done && ToBoolean res then ret res else ret result)
    (proxy_catch result) tr = (tr', Returned result') ->
  result' = result
  \/ (ToBoolean (prop parsed "done") && ToBoolean (prop parsed "result") = true
      /\ result' = prop parsed "result").
Proof.
  intros Hnn. rewrite !(member_not_null parsed) by assumption.
  unfold try_catch, bind. cbn [ret].
  destruct (ToBoolean (prop parsed "error")).
  { cbn [throw]. intros H. apply proxy_catch_returned in H. now left. }
  cbn [ret].
  destruct (match prop parsed "chunk", onChunk with
            | Some c, Some cb =>
                if ToBoolean (prop parsed "chunk") then call cb c else ret tt
            | _, _ => ret tt
            end tr) as [tr1 [[]|t|]].
  - destruct (ToBoolean (prop parsed "done") && ToBoolean (prop parsed "result"))%bool;
      intros H; inversion H; subst; [right; now split | now left].
  - intros H. apply proxy_catch_returned in H. now left.
  - intros H. discriminate H.
Qed.

(** A line that lets the loop go on either leaves [result] as it was or
    sets it to the result that the line delivers. *)
Lemma proxy_line_returned (onChunk : option callback) (line : string)
    (result result' : option json) (tr tr' : list event) :
  proxy_line onChunk line result tr = (tr', Returned result') ->
  result' = result
  \/ exists v, delivers_result line = Some v /\ result' = Some v.
Proof.
  unfold proxy_line, delivers_result.
  destruct (startsWith line "data: ");
    [|intros H; inversion H; now left].
  unfold try_catch at 1, bind at 1, JSON_parse_or_throw.
  destruct (JSON_parse (slice 6 line)) as [parsed|message].
  2:{ cbn [throw]. intros H. apply proxy_catch_returned in H. now left. }
  cbn [ret]. intros H.
  assert (Hcases : parsed = JNull \/ parsed <> JNull)
    by (destruct parsed; (now left) || (right; discriminate)).
  destruct Hcases as [->|Hnn].
  { cbn [member throw] in H. apply proxy_catch_returned in H. now left. }
  change (try_catch
    (error <- member parsed "error" ;;
     (if ToBoolean error then throw (Error (ToString_value error)) else ret tt) ;;
     chunk <- member parsed "chunk" ;;
     match chunk, onChunk with
     | Some c, Some cb => if ToBoolean chunk then call cb c else ret tt
     | _, _ => ret tt
     end ;;
     done <- member parsed "done" ;;
     res <- member parsed "result" ;;
     if ToBoolean done && ToBoolean res then ret res else ret result)
    (proxy_catch result) tr = (tr', Returned result')) in H.
  apply proxy_record_returned in H; [|assumption].
  destruct H as [->|[Hb ->]]; [now left|].
  right. rewrite Hb.
  destruct (prop parsed "result") as [v|] eqn:Er.
  - exists v. split; [|reflexivity]. destruct parsed; congruence.
  - cbn [ToBoolean] in Hb. rewrite andb_false_r in Hb. discriminate.
Qed.

(** The same for a run of lines, from a loop that goes on to its end. *)
Lemma proxy_lines_returned (onChunk : option callback) (lines : list string) :
  forall (result result' : option json) (tr tr' : list event),
    for_of (proxy_line onChunk) lines result tr = (tr', Returned result') ->
    result' = result
    \/ exists line v,
        In line lines /\ delivers_result line = Some v /\ result' = Some v.
Proof.
  induction lines as [|line lines IH]; intros result result' tr tr' H.
  - inversion H. now left.
  - cbn [for_of] in H. unfold bind in H.
    destruct (proxy_line onChunk line result tr) as [tr1 [r1|t|]] eqn:E;
      try discriminate.
    apply IH in H. apply proxy_line_returned in E.
    destruct H as [->|(l & v & Hin & Hd & ->)].
    + destruct E as [->|(v & Hd & ->)]; [now left|].
      right. exists line, v. repeat split; trivial. now left.
    + right. exists l, v. repeat split; trivial. now right.
Qed.
End ProxyLoop.

(* ================================================================== *)
(** * Calls that are answered, calls that are not *)

Section Answers.
Context {rt : JSRuntime}.
Variable cleanJsonString : string -> string.
Variable net : network.

Lemma timeout_or_rethrow_throws {A} (limit : Z) (e : thrown) (tr tr' : list event)
    (a : A) :
  timeout_or_rethrow limit e tr <> (tr', Returned a).
Proof. unfold timeout_or_rethrow, throw. destruct (is_AbortError e); discriminate. Qed.

(** A guarded request that returns was resolved in time. *)
Lemma guarded_fetch_returned {A} (req : request) (limit : Z)
    (k : response -> Eff A) (tr tr' : list event) (a : A) :
  req_signal req = Some limit ->
  try_catch (r <- fetch net req ;; k r) (timeout_or_rethrow limit) tr
  = (tr', Returned a) ->
  exists t r,
    net req = Resolves t r /\ (t <? limit) = true
    /\ try_catch (k r) (timeout_or_rethrow limit) (tr ++ [EvFetch req])
       = (tr', Returned a).
Proof.
  intros Hsig. unfold try_catch at 1, bind, fetch. rewrite Hsig.
  destruct (net req) as [t r|t e|].
  - destruct (t <? limit) eqn:Et.
    + intros H. exists t, r. repeat split; trivial.
    + intros H. now apply timeout_or_rethrow_throws in H.
  - destruct (t <? limit); intros H; now apply timeout_or_rethrow_throws in H.
  - intros H. now apply timeout_or_rethrow_throws in H.
Qed.

Lemma plan_stream_returned (apiConfig : ApiConfig) (document : string)
    (presentationConfig : PresentationConfig) (r : response)
    (tr tr' : list event) :
  plan_stream net apiConfig document presentationConfig tr = (tr', Returned r) ->
  exists t,
    net (plan_request apiConfig document presentationConfig) = Resolves t r
    /\ (t <? default_timeoutMs) = true /\ ok r = true.
Proof.
  unfold plan_stream, plan_request, clientStreamVertexAPI, clientStreamOpenAIAPI.
  destruct (protocol apiConfig); intros H;
    (apply guarded_fetch_returned in H; [|reflexivity];
     destruct H as (t & r0 & Hnet & Ht & H);
     unfold try_catch in H; destruct (ok r0) eqn:Hok; cbn [negb] in H;
     [inversion H; subst; exists t; now repeat split
     |cbn [throw] in H; now apply timeout_or_rethrow_throws in H]).
Qed.

(** The proxied planning call on a successful response with a body. *)
Lemma planPresentationServerProxy_answered (document : string)
    (presentationConfig : PresentationConfig) (apiConfig : ApiConfig)
    (onChunk : option callback) (t : Z) (r : response) (chunks : list string)
    (tr : list event) :
  let req := proxy_plan_request apiConfig document presentationConfig in
  net req = Resolves t r ->
  ok r = true ->
  body r = Some chunks ->
  planPresentationServerProxy net document presentationConfig apiConfig onChunk tr
  = (result <- read_stream (proxy_line onChunk) chunks None ;;
     match result with
     | Some v => if ToBoolean result then ret v
                 else throw (Error "No result received from stream")
     | None => throw (Error "No result received from stream")
     end) (tr ++ [EvFetch req]).
Proof.
  intros req Hnet Hok Hbody. unfold req in *. clear req.
  unfold planPresentationServerProxy, proxy_plan_request in *.
  unfold bind at 1, fetch at 1. rewrite Hnet. cbn [req_signal].
  unfold bind at 1. rewrite Hok. cbn [negb ret].
  unfold bind at 1, getReader. rewrite Hbody. reflexivity.
Qed.

(** A proxied planning call that returns was answered with a body. *)
Lemma planPresentationServerProxy_returned (document : string)
    (presentationConfig : PresentationConfig) (apiConfig : ApiConfig)
    (onChunk : option callback) (tr tr' : list event) (v : json) :
  planPresentationServerProxy net document presentationConfig apiConfig onChunk tr
  = (tr', Returned v) ->
  exists t r chunks,
    net (proxy_plan_request apiConfig document presentationConfig) = Resolves t r
    /\ ok r = true /\ body r = Some chunks.
Proof.
  unfold planPresentationServerProxy.
  fold (proxy_plan_request apiConfig document presentationConfig).
  unfold bind at 1, fetch at 1. cbn [req_signal proxy_plan_request].
  destruct (net (proxy_plan_request apiConfig document presentationConfig))
    as [t r|t e|]; try discriminate.
  unfold bind at 1. destruct (ok r) eqn:Hok; cbn [negb ret throw]; try discriminate.
  unfold bind at 1, getReader.
  destruct (body r) as [chunks|] eqn:Hbody; cbn [ret throw]; try discriminate.
  intros _. now exists t, r, chunks.
Qed.

(** Where the value of a proxied planning call comes from. *)
Lemma planPresentationServerProxy_source (document : string)
    (presentationConfig : PresentationConfig) (apiConfig : ApiConfig)
    (onChunk : option callback) (tr tr' : list event) (v : json) :
  planPresentationServerProxy net document presentationConfig apiConfig onChunk tr
  = (tr', Returned v) ->
  exists t r chunks line,
    net (proxy_plan_request apiConfig document presentationConfig) = Resolves t r
    /\ body r = Some chunks
    /\ In line (lines_of (String_concat chunks))
    /\ delivers_result line = Some v.
Proof.
  intros H.
  destruct (planPresentationServerProxy_returned _ _ _ _ _ _ _ H)
    as (t & r & chunks & Hnet & Hok & Hbody).
  rewrite (planPresentationServerProxy_answered _ _ _ _ t r chunks) in H
    by assumption.
  unfold bind in H. rewrite read_stream_lines in H.
  destruct (for_of (proxy_line onChunk) (lines_of (String_concat chunks)) None
              (tr ++ [EvFetch (proxy_plan_request apiConfig document presentationConfig)]))
    as [tr1 [result|e|]] eqn:E; try discriminate.
  apply proxy_lines_returned in E.
  destruct E as [->|(line & w & Hin & Hd & ->)]; [discriminate|].
  destruct (ToBoolean (Some w)); [|discriminate].
  inversion H; subst. now exists t, r, chunks, line.
Qed.

(** Where the value of a direct planning call comes from. *)
Lemma planPresentationClientDirect_source (document : string)
    (presentationConfig : PresentationConfig) (apiConfig : ApiConfig)
    (onChunk : option callback) (tr tr' : list event) (v : json) :
  planPresentationClientDirect cleanJsonString net document presentationConfig
    apiConfig onChunk tr = (tr', Returned v) ->
  exists t r chunks,
    net (plan_request apiConfig document presentationConfig) = Resolves t r
    /\ body r = Some chunks
    /\ JSON_parse
         (cleanJsonString
            (text_of (deltas_of (delta_of (protocol apiConfig))
                                (lines_of (String_concat chunks)))))
       = inl v.
Proof.
  intros H.
  destruct (plan_stream net apiConfig document presentationConfig tr)
    as [tr1 [r|e|]] eqn:E.
  - destruct (plan_stream_returned _ _ _ _ _ _ E) as (t & Hnet & Ht & Hok).
    destruct (body r) as [chunks|] eqn:Hbody.
    + rewrite (planPresentationClientDirect_answered _ _ _ _ _ _ t r chunks) in H
        by assumption.
      exists t, r, chunks. repeat split; trivial.
      destruct (JSON_parse _) as [w|m]; inversion H; reflexivity.
    + rewrite planPresentationClientDirect_unfold in H.
      unfold bind at 1 in H. rewrite E in H.
      unfold bind at 1, getReader in H. rewrite Hbody in H. discriminate.
  - rewrite planPresentationClientDirect_unfold in H.
    unfold bind at 1 in H. rewrite E in H. discriminate.
  - rewrite planPresentationClientDirect_unfold in H.
    unfold bind at 1 in H. rewrite E in H. discriminate.
Qed.
(** [planPresentationOpenAI] on a successful response that carries a text. *)
Lemma planPresentationOpenAI_answered (config : OpenAIApi.VertexApiConfig)
    (document : string) (presentationConfig : PresentationConfig) (t : Z)
    (r : response) (completion text : json) (tr : list event) :
  net (chat_plan_request config document presentationConfig) = Resolves t r ->
  (t <? default_timeoutMs) = true ->
  ok r = true ->
  JSON_parse (response_text r) = inl completion ->
  completion <> JNull ->
  (prop completion "choices")?.[0]?."message"?."content" = Some text ->
  ToBoolean (Some text) = true ->
  OpenAIApi.planPresentationOpenAI net config document presentationConfig tr
  = (tr ++ [EvFetch (chat_plan_request config document presentationConfig)],
     match JSON_parse (ToString text) with
     | inl v => Returned v
     | inr message => Threw (SyntaxError message)
     end).
Proof.
  intros Hnet Ht Hok Hjson Hnn Htext Htruthy.
  unfold OpenAIApi.planPresentationOpenAI, OpenAIApi.callOpenAIChatAPI,
    chat_plan_request in *.
  unfold bind at 1.
  erewrite guarded_fetch_resolved by (try reflexivity; eassumption).
  rewrite Hok. cbn [negb].
  unfold try_catch, response_json, JSON_parse_or_throw. rewrite Hjson. cbn [ret].
  unfold bind at 1, OpenAIApi.extractText.
  rewrite member_not_null by assumption. unfold bind at 1. cbn [ret].
  rewrite Htext, Htruthy. cbn [ret].
  now destruct (JSON_parse (ToString text)).
Qed.
End Answers.

(* ================================================================== *)
(** * Properties of the planning result, of timeouts and of the proxy *)

Section Planning.
Context {rt : JSRuntime}.
Variable cleanJsonString : string -> string.
Variable net : network.



(** C3 (amended): every request of a direct call, planning or image, is
    given a cancellation signal that a timer aborts after 180000
    milliseconds; when the transport has not settled the request by then,
    the call raises the timeout error, whose message prints the bound in
    seconds, and the trace holds the request and nothing else: no progress
    callback is made. The requests of the proxied calls are given no
    signal: on a transport that never settles them these calls stay
    pending. *)
Theorem timeout_bounds_direct_requests :
  forall (apiConfig : ApiConfig) (document : string)
         (presentationConfig : PresentationConfig) (onChunk : option callback)
         (slide : SlideContent) (deckTitle : string) (tr : list event),
    Number_toString default_timeoutMs (-3) = "180" ->
    (requestMode apiConfig = CLIENT_DIRECT ->
     let plan := plan_request apiConfig document presentationConfig in
     let image := image_request apiConfig slide deckTitle presentationConfig in
     (req_signal plan = Some 180000 /\ req_signal image = Some 180000)
     /\ (settles_before (net plan) 180000 = false ->
         planPresentation cleanJsonString net (Some apiConfig) document
           presentationConfig onChunk tr
         = (tr ++ [EvFetch plan],
            Threw (Error "Request timeout after 180 seconds")))
     /\ (settles_before (net image) 180000 = false ->
         generateSlideImage net (Some apiConfig) slide deckTitle
           presentationConfig tr
         = (tr ++ [EvFetch image],
            Threw (Error "Request timeout after 180 seconds"))))
    /\ (requestMode apiConfig = SERVER_PROXY ->
        let plan := proxy_plan_request apiConfig document presentationConfig in
        let gen := proxy_gen_request apiConfig slide deckTitle presentationConfig in
        (req_signal plan = None /\ req_signal gen = None)
        /\ (net plan = Silent ->
            planPresentation cleanJsonString net (Some apiConfig) document
              presentationConfig onChunk tr
            = (tr ++ [EvFetch plan], Pending))
        /\ (net gen = Silent ->
            generateSlideImage net (Some apiConfig) slide deckTitle
              presentationConfig tr
            = (tr ++ [EvFetch gen], Pending))).
Proof.
  intros apiConfig document presentationConfig onChunk slide deckTitle tr Hprint.
  assert (Hmsg : timeout_message default_timeoutMs
                 = "Request timeout after 180 seconds")
    by (unfold timeout_message; now rewrite Hprint).
  split; intros Hmode.
  - intros plan image. repeat split.
    + unfold plan, plan_request. now destruct (protocol apiConfig).
    + unfold image, image_request. now destruct (protocol apiConfig).
    + intros Hlate. unfold planPresentation. rewrite Hmode.
      rewrite planPresentationClientDirect_unfold. unfold bind at 1.
      rewrite plan_stream_timeout by exact Hlate. now rewrite Hmsg.
    + intros Hlate. unfold generateSlideImage. rewrite Hmode.
      unfold generateSlideImageClientDirect, image, image_request in *.
      destruct (protocol apiConfig); unfold bind at 1;
        unfold clientCallVertexAPI, clientCallOpenAIImageAPI;
        rewrite guarded_fetch_timeout by (reflexivity || exact Hlate);
        now rewrite Hmsg.
  - intros plan gen. repeat split.
    + intros Hsilent. unfold planPresentation. rewrite Hmode.
      unfold planPresentationServerProxy, plan, proxy_plan_request in *.
      unfold bind at 1, fetch. now rewrite Hsilent.
    + intros Hsilent. unfold generateSlideImage. rewrite Hmode.
      unfold generateSlideImageServerProxy, gen, proxy_gen_request in *.
      unfold bind at 1, fetch. now rewrite Hsilent.
Qed.

(** C9: a proxied planning call returns a value only when a line of the
    stream delivered it as the [result] of a [done] record; and when the
    loop reads the stream to its end and no line delivers a result, the call
    raises ["No result received from stream"]. *)
Theorem proxy_result_needs_done_record :
  forall (apiConfig : ApiConfig) (document : string)
         (presentationConfig : PresentationConfig) (onChunk : option callback)
         (tr : list event),
    let req := proxy_plan_request apiConfig document presentationConfig in
    (forall tr' v,
        planPresentationServerProxy net document presentationConfig apiConfig
          onChunk tr = (tr', Returned v) ->
        exists t r chunks line,
          net req = Resolves t r /\ body r = Some chunks
          /\ In line (lines_of (String_concat chunks))
          /\ delivers_result line = Some v)
    /\ (forall t r chunks tr' result,
           net req = Resolves t r ->
           ok r = true ->
           body r = Some chunks ->
           (forall line, In line (lines_of (String_concat chunks)) ->
                         delivers_result line = None) ->
           read_stream (proxy_line onChunk) chunks None (tr ++ [EvFetch req])
           = (tr', Returned result) ->
           planPresentationServerProxy net document presentationConfig apiConfig
             onChunk tr
           = (tr', Threw (Error "No result received from stream"))).
Proof.
  intros apiConfig document presentationConfig onChunk tr req. split.
  - intros tr' v. apply planPresentationServerProxy_source.
  - intros t r chunks tr' result Hnet Hok Hbody Hnone Hloop.
    rewrite (planPresentationServerProxy_answered _ _ _ _ _ t r chunks)
      by assumption.
    fold req. unfold bind. rewrite Hloop.
    rewrite read_stream_lines in Hloop.
    apply proxy_lines_returned in Hloop.
    destruct Hloop as [->|(line & v & Hin & Hd & _)]; [reflexivity|].
    rewrite (Hnone line Hin) in Hd. discriminate.
Qed.
End Planning.

(* ================================================================== *)
(** * Lines that are skipped *)

Section SkippedLines.
Context {rt : JSRuntime}.

Lemma data_line_payload (payload : string) :
  startsWith ("data: " +++ payload) "data: " = true
  /\ slice 6 ("data: " +++ payload) = payload.
Proof.
  split; [|reflexivity].
  unfold startsWith. cbn. now destruct payload.
Qed.

Lemma delta_of_unparsable (p : ApiProtocol) (payload message : string) :
  JSON_parse payload = inr message ->
  delta_of p ("data: " +++ payload) = None.
Proof.
  intros Hparse. destruct (data_line_payload payload) as [Hdata Hslice].
  destruct p; unfold delta_of, vertex_delta, openai_delta;
    rewrite Hdata, Hslice, Hparse; [reflexivity|].
  now destruct (String.eqb payload "[DONE]").
Qed.

Lemma openai_delta_DONE : openai_delta "data: [DONE]" = None.
Proof. reflexivity. Qed.

(** Removing a line without a delta changes nothing in a direct loop. *)
Lemma direct_loop_skips (p : ApiProtocol) (onChunk : option callback)
    (chunks chunks' : list string) (before after : list string) (line : string)
    (tr : list event) :
  delta_of p line = None ->
  lines_of (String_concat chunks) = before ++ line :: after ->
  lines_of (String_concat chunks') = before ++ after ->
  read_stream match p with
              | OPENAI => openai_line onChunk
              | VERTEX_AI => vertex_line onChunk
              end chunks "" tr
  = read_stream match p with
                | OPENAI => openai_line onChunk
                | VERTEX_AI => vertex_line onChunk
                end chunks' "" tr.
Proof.
  intros Hnone Hlines Hlines'. rewrite !direct_stream_run.
  rewrite Hlines, Hlines', !deltas_of_app.
  cbn [deltas_of flat_map]. now rewrite Hnone.
Qed.

(** C5 (amended): a [data: ] line whose payload does not parse is dropped
    by the two direct loops, the stream going on with the lines before and
    after it. The proxy loop drops it only when the message of the parse
    error is ["Unexpected end of JSON input"]; with any other message the
    loop stops at that line and the [SyntaxError] is raised. *)
Theorem unparsable_data_lines :
  forall (onChunk : option callback) (payload message : string)
         (chunks chunks' : list string) (before after : list string)
         (tr : list event),
    JSON_parse payload = inr message ->
    lines_of (String_concat chunks) = before ++ ("data: " +++ payload) :: after ->
    lines_of (String_concat chunks') = before ++ after ->
    (forall p : ApiProtocol,
        read_stream match p with
                    | OPENAI => openai_line onChunk
                    | VERTEX_AI => vertex_line onChunk
                    end chunks "" tr
        = read_stream match p with
                      | OPENAI => openai_line onChunk
                      | VERTEX_AI => vertex_line onChunk
                      end chunks' "" tr)
    /\ (forall result : option json,
           read_stream (proxy_line onChunk) chunks result tr
           = if String.eqb message "Unexpected end of JSON input"
             then read_stream (proxy_line onChunk) chunks' result tr
             else
               match for_of (proxy_line onChunk) before result tr with
               | (tr', Returned _) => (tr', Threw (SyntaxError message))
               | stopped => stopped
               end).
Proof.
  intros onChunk payload message chunks chunks' before after tr
    Hparse Hlines Hlines'.
  split.
  - intros p. apply (direct_loop_skips p onChunk chunks chunks' before after
                       ("data: " +++ payload)); trivial.
    now apply delta_of_unparsable with (message := message).
  - intros result. rewrite !read_stream_lines, Hlines, Hlines'.
    destruct (data_line_payload payload) as [Hdata Hslice].
    pose proof (fun r tr0 =>
      proxy_line_unparsable onChunk ("data: " +++ payload) message r tr0 Hdata
        (eq_trans (f_equal JSON_parse Hslice) Hparse)) as Hbad.
    rewrite !for_of_app. unfold bind.
    destruct (for_of (proxy_line onChunk) before result tr) as [tr1 [r1|e|]];
      [|now destruct (String.eqb message _)|now destruct (String.eqb message _)].
    cbn [for_of]. unfold bind. rewrite Hbad.
    now destruct (String.eqb message "Unexpected end of JSON input").
Qed.

(** C6 (amended): the line [data: [DONE]] of an OpenAI stream is skipped:
    the loop does with the stream what it does with the same stream without
    that line, whatever [JSON.parse] is, so the line is not parsed, adds no
    delta, makes no callback and raises nothing. The loop does not stop at
    it: the lines after it are read as the lines before it. *)
Theorem DONE_line_is_skipped :
  forall (onChunk : option callback) (chunks chunks' : list string)
         (before after : list string) (tr : list event),
    lines_of (String_concat chunks) = before ++ "data: [DONE]" :: after ->
    lines_of (String_concat chunks') = before ++ after ->
    read_stream (openai_line onChunk) chunks "" tr
    = read_stream (openai_line onChunk) chunks' "" tr.
Proof.
  intros onChunk chunks chunks' before after tr Hlines Hlines'.
  exact (direct_loop_skips OPENAI onChunk chunks chunks' before after
           "data: [DONE]" tr openai_delta_DONE Hlines Hlines').
Qed.
End SkippedLines.

(* ================================================================== *)
(** * Image extraction *)

Section Images.
Context {rt : JSRuntime}.
Variable net : network.

Lemma extractImage_parts_skip (before rest : list json) (tr : list event) :
  Forall no_image before ->
  extractImage_parts (before ++ rest) tr = extractImage_parts rest tr.
Proof.
  induction 1 as [|part before [Hnn Hno] _ IH]; [reflexivity|].
  cbn [app extractImage_parts]. rewrite member_not_null by assumption.
  unfold bind. cbn [ret]. unfold carries_image in Hno. now rewrite Hno.
Qed.

Lemma extractImage_parts_found (part : json) (after : list json) (tr : list event) :
  carries_image part = true ->
  extractImage_parts (part :: after) tr = (tr, Returned (Some (data_uri part))).
Proof.
  intros Hyes. cbn [extractImage_parts].
  assert (Hnn : part <> JNull) by (intros ->; discriminate Hyes).
  rewrite member_not_null by assumption.
  unfold bind. cbn [ret]. unfold carries_image in Hyes. now rewrite Hyes.
Qed.

Lemma extractImage_unfold (response : json) (parts : list json) (tr : list event) :
  response <> JNull ->
  image_parts response = Some (JArray parts) ->
  extractImage response tr = extractImage_parts parts tr.
Proof.
  intros Hnn Hparts. unfold extractImage.
  rewrite member_not_null by assumption. unfold bind at 1. cbn [ret].
  unfold image_parts in Hparts. rewrite Hparts. reflexivity.
Qed.

End Images.

(* ================================================================== *)
(** * Runs on concrete streams *)

Section Runs.
#[local] Existing Instance Reference.runtime.

(** The example of the specification: two Vertex events, one chunk each. *)
Example reassembly_AB_CD :
  read_stream (vertex_line (Some quiet))
    [sse [vertex_event "AB"]; sse [vertex_event "CD"]] "" []
  = ([EvChunk (JString "AB"); EvChunk (JString "CD")], Returned "ABCD").
Proof. vm_compute. reflexivity. Qed.

(** The same text cut in the middle of a line, and without its last line
    feed: the last line is never read. *)
Example reassembly_across_chunks :
  read_stream (openai_line (Some quiet))
    ["data: {"; q "'choices':[{'delta':{'content':'AB'}}]}" +++ String newline ""
                +++ openai_event "CD"] "" []
  = ([EvChunk (JString "AB")], Returned "AB").
Proof. vm_compute. reflexivity. Qed.

(** The cleanup of the specification on its two examples. *)
Example cleanJsonString_examples :
  Reference.cleanJsonString (q "{'title':'T','slides':[]}")
  = q "{'title':'T','slides':[]}"
  /\ Reference.cleanJsonString
       ("```json" +++ String newline "" +++ q "{'title':'T','slides':[]}"
        +++ String newline "" +++ "```")
     = q "{'title':'T','slides':[]}".
Proof. split; vm_compute; reflexivity. Qed.

(** The image example of the specification. *)
Example extractImage_jpeg :
  (response <- JSON_parse_or_throw
     (q "{'candidates':[{'content':{'parts':[{'inlineData':{'mimeType':'image/jpeg','data':'QUJD'}}]}}]}") ;;
   extractImage response) []
  = ([], Returned (Some "data:image/jpeg;base64,QUJD")).
Proof. vm_compute. reflexivity. Qed.





(** Witness of C3: a direct planning call on a transport that never
    answers. *)
Lemma timeout_bounds_direct_requests_witness :
  planPresentation Reference.cleanJsonString silent
    (Some (sample_config OPENAI CLIENT_DIRECT)) "a document" JNull (Some quiet) []
  = ([EvFetch (plan_request (sample_config OPENAI CLIENT_DIRECT) "a document" JNull)],
     Threw (Error "Request timeout after 180 seconds")).
Proof.
  refine (proj1 (proj2 (proj1 (timeout_bounds_direct_requests Reference.cleanJsonString
                                 silent (sample_config OPENAI CLIENT_DIRECT)
                                 "a document" JNull (Some quiet) JNull "a deck" []
                                 _) _)) _);
    vm_compute; reflexivity.
Defined.

(** Counterexample to C3: the requests of the proxied calls carry no
    signal, and on a transport that never answers the calls stay pending:
    no timeout error is raised. *)
Lemma proxied_requests_have_no_timeout :
  planPresentation Reference.cleanJsonString silent
    (Some (sample_config VERTEX_AI SERVER_PROXY)) "a document" JNull None []
  = ([EvFetch {| req_url := "/api/plan";
                 req_auth := None;
                 req_body := ProxyPlanBody "a document" JNull
                               (sample_config VERTEX_AI SERVER_PROXY);
                 req_signal := None |}],
     Pending)
  /\ generateSlideImage silent
       (Some (sample_config VERTEX_AI SERVER_PROXY)) JNull "a deck" JNull []
     = ([EvFetch {| req_url := "/api/gen";
                    req_auth := None;
                    req_body := ProxyGenBody JNull "a deck" JNull
                                  (sample_config VERTEX_AI SERVER_PROXY);
                    req_signal := None |}],
        Pending).
Proof. split; vm_compute; reflexivity. Qed.

(** Witness of C5: [data: not-json] between two events, in the direct
    loops and in the proxy loop. *)
Lemma unparsable_data_lines_witness :
  read_stream (vertex_line (Some quiet))
    [sse [vertex_event "AB"; "data: not-json"; vertex_event "CD"]] "" []
  = read_stream (vertex_line (Some quiet))
      [sse [vertex_event "AB"; vertex_event "CD"]] "" []
  /\ read_stream (proxy_line (Some quiet))
       [sse [vertex_event "AB"; "data: not-json"; vertex_event "CD"]] None []
     = ([], Threw (SyntaxError "Unexpected token in JSON")).
Proof.
  refine ((fun H => conj (proj1 H VERTEX_AI) (proj2 H None))
            (unparsable_data_lines (Some quiet) "not-json"
               "Unexpected token in JSON"
               [sse [vertex_event "AB"; "data: not-json"; vertex_event "CD"]]
               [sse [vertex_event "AB"; vertex_event "CD"]]
               [vertex_event "AB"] [vertex_event "CD"] [] _ _ _));
    vm_compute; reflexivity.
Defined.

(** Counterexample to C5: in proxied mode [data: not-json] between a chunk
    record and the final record aborts the call; without that line the call
    returns the plan. *)
Lemma proxy_aborts_on_unparsable_line :
  planPresentation Reference.cleanJsonString
    (answering [sse [q "data: {'chunk':'A'}"; "data: not-json";
                     q "data: {'done':true,'result':{'title':'T','slides':[]}}"]])
    (Some (sample_config VERTEX_AI SERVER_PROXY)) "a document" JNull (Some quiet) []
  = ([EvFetch (proxy_plan_request (sample_config VERTEX_AI SERVER_PROXY)
                 "a document" JNull);
      EvChunk (JString "A")],
     Threw (SyntaxError "Unexpected token in JSON"))
  /\ snd (planPresentation Reference.cleanJsonString
            (answering [sse [q "data: {'chunk':'A'}";
                             q "data: {'done':true,'result':{'title':'T','slides':[]}}"]])
            (Some (sample_config VERTEX_AI SERVER_PROXY)) "a document" JNull
            (Some quiet) [])
     = Returned (JObject [("title", JString "T"); ("slides", JArray [])]).
Proof. split; vm_compute; reflexivity. Qed.

(** Witness of C6: [data: [DONE]] between two events. *)
Lemma DONE_line_is_skipped_witness :
  read_stream (openai_line (Some quiet))
    [sse [openai_event "AB"; "data: [DONE]"; openai_event "CD"]] "" []
  = read_stream (openai_line (Some quiet))
      [sse [openai_event "AB"; openai_event "CD"]] "" [].
Proof.
  apply (DONE_line_is_skipped (Some quiet)
           [sse [openai_event "AB"; "data: [DONE]"; openai_event "CD"]]
           [sse [openai_event "AB"; openai_event "CD"]]
           [openai_event "AB"] [openai_event "CD"] []);
    vm_compute; reflexivity.
Defined.

(** Counterexample to C6: the loop does not end at [data: [DONE]]: an
    event after it is accumulated and reported, where a stream that ends at
    that line gives the empty text. *)
Lemma DONE_line_does_not_end_the_stream :
  read_stream (openai_line (Some quiet))
    [sse ["data: [DONE]"; openai_event "X"]] "" []
  = ([EvChunk (JString "X")], Returned "X")
  /\ read_stream (openai_line (Some quiet)) [sse ["data: [DONE]"]] "" []
     = ([], Returned "").
Proof. split; vm_compute; reflexivity. Qed.


(** Witness of C9: a stream of chunk records that ends without a [done]
    record, and a stream that ends with one. *)
Lemma proxy_result_needs_done_record_witness :
  planPresentationServerProxy
    (answering [sse [q "data: {'chunk':'A'}"; q "data: {'chunk':'B'}"]])
    "a document" JNull (sample_config VERTEX_AI SERVER_PROXY) (Some quiet) []
  = ([EvFetch (proxy_plan_request (sample_config VERTEX_AI SERVER_PROXY)
                 "a document" JNull);
      EvChunk (JString "A"); EvChunk (JString "B")],
     Threw (Error "No result received from stream")).
Proof.
  refine (proj2 (proxy_result_needs_done_record
                   (answering [sse [q "data: {'chunk':'A'}"; q "data: {'chunk':'B'}"]])
                   (sample_config VERTEX_AI SERVER_PROXY) "a document" JNull
                   (Some quiet) [])
            250 {| ok := true; statusText := "OK";
                   body := Some [sse [q "data: {'chunk':'A'}"; q "data: {'chunk':'B'}"]] |}
            [sse [q "data: {'chunk':'A'}"; q "data: {'chunk':'B'}"]]
            _ None _ _ _ _ _).
  - reflexivity.
  - reflexivity.
  - reflexivity.
  - intros line Hin. vm_compute in Hin.
    destruct Hin as [<-|[<-|[]]]; vm_compute; reflexivity.
  - vm_compute. reflexivity.
Defined.
End Runs.

(* ================================================================== *)
(** * More on the reading of streams *)

Lemma no_newline_app (a b : string) :
  no_newline (a +++ b) = (no_newline a && no_newline b)%bool.
Proof.
  induction a as [|c a IH]; [reflexivity|].
  cbn [String.append no_newline]. now rewrite IH, andb_assoc.
Qed.

Lemma split_newline_no_newline (s : string) :
  no_newline s = true -> split_newline s = [s].
Proof.
  induction s as [|c s IH]; [reflexivity|].
  cbn [no_newline split_newline]. intros H.
  apply andb_true_iff in H. destruct H as [Hc Hs].
  apply negb_true_iff in Hc. rewrite Hc, (IH Hs). reflexivity.
Qed.

Lemma split_newline_pieces (s : string) :
  Forall (fun piece => no_newline piece = true) (split_newline s).
Proof.
  induction s as [|c s IH]; [repeat constructor|].
  cbn [split_newline]. destruct (Ascii.eqb c newline) eqn:Ec.
  - constructor; [reflexivity | exact IH].
  - destruct (split_newline s) as [|piece pieces].
    + constructor; [|constructor]. cbn [no_newline]. now rewrite Ec.
    + inversion IH as [|? ? Hpiece Hpieces]; subst.
      constructor; [|exact Hpieces]. cbn [no_newline]. now rewrite Ec, Hpiece.
Qed.

(** What is left in the buffer holds no line feed. *)
Lemma rest_of_no_newline (s : string) : no_newline (rest_of s) = true.
Proof.
  pose proof (split_newline_pieces s) as H.
  rewrite split_newline_lines_rest in H.
  apply Forall_app in H. destruct H as [_ H].
  now inversion H.
Qed.

Lemma lines_of_app_no_newline (t s : string) :
  no_newline s = true -> lines_of (t +++ s) = lines_of t.
Proof.
  intros Hs. rewrite lines_of_app.
  unfold lines_of at 2.
  rewrite split_newline_no_newline
    by (rewrite no_newline_app, rest_of_no_newline, Hs; reflexivity).
  cbn [Array_pop fst]. apply app_nil_r.
Qed.

Section Reading.
Context {rt : JSRuntime}.

(** X1: what a loop does with a stream depends on the text of the stream
    only, not on where the network cuts it into chunks. *)
Theorem reading_ignores_chunk_boundaries :
  forall (S : Type) (on_line : string -> S -> Eff S)
         (chunks chunks' : list string) (s : S) (tr : list event),
    String_concat chunks = String_concat chunks' ->
    read_stream on_line chunks s tr = read_stream on_line chunks' s tr.
Proof.
  intros S on_line chunks chunks' s tr Htext.
  now rewrite !read_stream_lines, Htext.
Qed.

(** X2: text after the last line feed of a stream is never read: a stream
    that goes on with text holding no line feed, and then ends, is read as
    the stream without that text. *)
Theorem unfinished_last_line_is_dropped :
  forall (S : Type) (on_line : string -> S -> Eff S)
         (chunks : list string) (tail : string) (s : S) (tr : list event),
    no_newline tail = true ->
    read_stream on_line (chunks ++ [tail]) s tr = read_stream on_line chunks s tr.
Proof.
  intros S on_line chunks tail s tr Htail.
  rewrite !read_stream_lines, String_concat_app.
  cbn [String_concat fold_right]. rewrite append_empty_r.
  now rewrite lines_of_app_no_newline.
Qed.

Lemma delta_of_other_line (p : ApiProtocol) (line : string) :
  startsWith line "data: " = false -> delta_of p line = None.
Proof.
  intros H. destruct p; unfold delta_of, vertex_delta, openai_delta;
    now rewrite H.
Qed.

(** X3: a line that does not start with [data: ] (a comment, an [event:]
    line, an empty line, or [data:] with no space after the colon) is
    ignored by the three loops: the stream is read as the stream without
    that line. *)
Theorem lines_without_prefix_are_ignored :
  forall (onChunk : option callback) (line : string)
         (chunks chunks' : list string) (before after : list string)
         (tr : list event),
    startsWith line "data: " = false ->
    lines_of (String_concat chunks) = before ++ line :: after ->
    lines_of (String_concat chunks') = before ++ after ->
    (forall p : ApiProtocol,
        read_stream match p with
                    | OPENAI => openai_line onChunk
                    | VERTEX_AI => vertex_line onChunk
                    end chunks "" tr
        = read_stream match p with
                      | OPENAI => openai_line onChunk
                      | VERTEX_AI => vertex_line onChunk
                      end chunks' "" tr)
    /\ (forall result : option json,
           read_stream (proxy_line onChunk) chunks result tr
           = read_stream (proxy_line onChunk) chunks' result tr).
Proof.
  intros onChunk line chunks chunks' before after tr Hother Hlines Hlines'.
  split.
  - intros p. apply (direct_loop_skips p onChunk chunks chunks' before after line);
      trivial. now apply delta_of_other_line.
  - intros result. rewrite !read_stream_lines, Hlines, Hlines', !for_of_app.
    apply bind_ext. intros r tr1. cbn [for_of]. unfold bind at 1.
    unfold proxy_line at 1. now rewrite Hother.
Qed.
End Reading.

(* ================================================================== *)
(** * Requests that fail *)

Section Failures.
Context {rt : JSRuntime}.
Variable cleanJsonString : string -> string.
Variable net : network.

Lemma guarded_fetch_rejected {A} (req : request) (limit t : Z) (e : thrown)
    (k : response -> Eff A) (tr : list event) :
  req_signal req = Some limit ->
  net req = Rejects t e ->
  (t <? limit) = true ->
  is_AbortError e = false ->
  try_catch (x <- fetch net req ;; k x) (timeout_or_rethrow limit) tr
  = (tr ++ [EvFetch req], Threw e).
Proof.
  intros Hsig Hnet Ht He. unfold try_catch, bind, fetch.
  rewrite Hsig, Hnet, Ht. unfold timeout_or_rethrow. now rewrite He.
Qed.

Lemma timeout_or_rethrow_Error {A} (limit : Z) (message : string) (tr : list event) :
  @timeout_or_rethrow rt A limit (Error message) tr = (tr, Threw (Error message)).
Proof. reflexivity. Qed.


(** X5: an error with which the transport rejects a request in time (a
    network failure, not an abort) reaches the caller of a direct call as it
    is, not as a timeout and not as an [API error]; a proxied call passes
    on whatever rejects its request. *)
Theorem transport_rejection_is_passed_on :
  forall (apiConfig : ApiConfig) (document : string)
         (presentationConfig : PresentationConfig) (onChunk : option callback)
         (slide : SlideContent) (deckTitle : string) (tr : list event)
         (t : Z) (e : thrown),
    (requestMode apiConfig = CLIENT_DIRECT ->
     (t <? default_timeoutMs) = true ->
     is_AbortError e = false ->
     let plan := plan_request apiConfig document presentationConfig in
     let image := image_request apiConfig slide deckTitle presentationConfig in
     (net plan = Rejects t e ->
      planPresentation cleanJsonString net (Some apiConfig) document
        presentationConfig onChunk tr = (tr ++ [EvFetch plan], Threw e))
     /\ (net image = Rejects t e ->
         generateSlideImage net (Some apiConfig) slide deckTitle
           presentationConfig tr = (tr ++ [EvFetch image], Threw e)))
    /\ (requestMode apiConfig = SERVER_PROXY ->
        let plan := proxy_plan_request apiConfig document presentationConfig in
        let gen := proxy_gen_request apiConfig slide deckTitle presentationConfig in
        (net plan = Rejects t e ->
         planPresentation cleanJsonString net (Some apiConfig) document
           presentationConfig onChunk tr = (tr ++ [EvFetch plan], Threw e))
        /\ (net gen = Rejects t e ->
            generateSlideImage net (Some apiConfig) slide deckTitle
              presentationConfig tr = (tr ++ [EvFetch gen], Threw e))).
Proof.
  intros apiConfig document presentationConfig onChunk slide deckTitle tr t e.
  split; intros Hmode.
  - intros Ht He plan image.
    unfold planPresentation, generateSlideImage. rewrite Hmode.
    split; intros Hnet.
    + rewrite planPresentationClientDirect_unfold. unfold bind at 1.
      unfold plan_stream, plan, plan_request in *.
      destruct (protocol apiConfig);
        unfold clientStreamVertexAPI, clientStreamOpenAIAPI;
        erewrite guarded_fetch_rejected by (try reflexivity; eassumption);
        reflexivity.
    + unfold generateSlideImageClientDirect, image, image_request in *.
      destruct (protocol apiConfig); unfold bind at 1;
        unfold clientCallVertexAPI, clientCallOpenAIImageAPI;
        erewrite guarded_fetch_rejected by (try reflexivity; eassumption);
        reflexivity.
  - intros plan gen.
    unfold planPresentation, generateSlideImage. rewrite Hmode.
    split; intros Hnet.
    + unfold planPresentationServerProxy, plan, proxy_plan_request in *.
      unfold bind at 1, fetch. now rewrite Hnet.
    + unfold generateSlideImageServerProxy, gen, proxy_gen_request in *.
      unfold bind at 1, fetch. now rewrite Hnet.
Qed.

(** X6: a successful response without a body makes a planning call raise
    ["No response body"], on both transports and in both protocols. *)
Theorem response_without_body_is_an_error :
  forall (apiConfig : ApiConfig) (document : string)
         (presentationConfig : PresentationConfig) (onChunk : option callback)
         (tr : list event) (t : Z) (r : response),
    let req :=
      match requestMode apiConfig with
      | CLIENT_DIRECT => plan_request apiConfig document presentationConfig
      | SERVER_PROXY => proxy_plan_request apiConfig document presentationConfig
      end in
    net req = Resolves t r ->
    (t <? default_timeoutMs) = true ->
    ok r = true ->
    body r = None ->
    planPresentation cleanJsonString net (Some apiConfig) document
      presentationConfig onChunk tr
    = (tr ++ [EvFetch req], Threw (Error "No response body")).
Proof.
  intros apiConfig document presentationConfig onChunk tr t r req
    Hnet Ht Hok Hbody.
  unfold planPresentation, req in *. destruct (requestMode apiConfig).
  - rewrite planPresentationClientDirect_unfold. unfold bind at 1.
    rewrite (plan_stream_resolved _ _ _ _ t r) by assumption.
    unfold bind at 1, getReader. now rewrite Hbody.
  - unfold planPresentationServerProxy, proxy_plan_request in *.
    unfold bind at 1, fetch at 1. rewrite Hnet. cbn [req_signal].
    unfold bind at 1. rewrite Hok. cbn [negb ret].
    unfold bind at 1, getReader. now rewrite Hbody.
Qed.
End Failures.

(* ================================================================== *)
(** * More on the proxy loop *)

Section ProxyRecords.
Context {rt : JSRuntime}.

(** The proxy loop on a line whose payload parses to a record. *)
Lemma proxy_line_parsed (onChunk : option callback) (line : string)
    (parsed : json) (result : option json) (tr : list event) :
  startsWith line "data: " = true ->
  JSON_parse (slice 6 line) = inl parsed ->
  parsed <> JNull ->
  proxy_line onChunk line result tr
  = if ToBoolean (prop parsed "error")
    then proxy_catch result (Error (ToString_value (prop parsed "error"))) tr
    else
      try_catch
        (match prop parsed "chunk", onChunk with
         | Some c, Some cb =>
             if ToBoolean (prop parsed "chunk") then call cb c else ret tt
         | _, _ => ret tt
         end ;;
         if ToBoolean (prop parsed "done") && ToBoolean (prop parsed "result")
         then ret (prop parsed "result") else ret result)
        (proxy_catch result) tr.
Proof.
  intros Hdata Hparse Hnn. unfold proxy_line. rewrite Hdata.
  unfold JSON_parse_or_throw. rewrite Hparse.
  unfold try_catch at 1, bind at 1. cbn [ret].
  rewrite !(member_not_null parsed) by assumption.
  unfold try_catch, bind. cbn [ret].
  destruct (ToBoolean (prop parsed "error")); reflexivity.
Qed.

Lemma delivers_result_truthy (line : string) (v : json) :
  delivers_result line = Some v -> ToBoolean (Some v) = true.
Proof.
  unfold delivers_result.
  destruct (startsWith line "data: "); [|discriminate].
  destruct (JSON_parse (slice 6 line)) as [parsed|]; [|discriminate].
  destruct parsed; try discriminate;
    match goal with
    | |- context [prop ?p "result"] =>
        destruct (ToBoolean (prop p "done")); [|discriminate];
        destruct (ToBoolean (prop p "result")) eqn:E; [|discriminate];
        cbn [andb]; intros H; now rewrite H in E
    end.
Qed.

(** A clean line under a callback that returns: the callback gets the
    chunk of the line, and the result becomes the one the line delivers. *)
Lemma proxy_line_clean (onChunk : option callback) (line : string)
    (result : option json) (tr : list event) :
  returns_always onChunk ->
  proxy_clean line = true ->
  proxy_line onChunk line result tr
  = (tr ++ progress onChunk (deltas_of proxy_chunk [line]),
     Returned match delivers_result line with
              | Some v => Some v
              | None => result
              end).
Proof.
  intros Hquiet Hclean.
  unfold proxy_clean in Hclean. unfold deltas_of, proxy_chunk, delivers_result.
  cbn [flat_map].
  destruct (startsWith line "data: ") eqn:Hdata.
  2:{ unfold proxy_line. rewrite Hdata.
      destruct onChunk; cbn; now rewrite app_nil_r. }
  destruct (JSON_parse (slice 6 line)) as [parsed|message] eqn:Hparse.
  2:{ rewrite (proxy_line_unparsable onChunk line message) by assumption.
      rewrite Hclean. destruct onChunk; cbn; now rewrite app_nil_r. }
  assert (Hnn : parsed <> JNull) by (intros ->; discriminate).
  rewrite (proxy_line_parsed onChunk line parsed) by assumption.
  assert (Herr : ToBoolean (prop parsed "error") = false)
    by (destruct parsed; try congruence; now apply negb_true_iff).
  rewrite Herr.
  assert (Hsame :
    forall (A : Type) (x y : A),
      match parsed with JNull => x | _ => y end = y)
    by (intros; destruct parsed; congruence).
  rewrite !Hsame. clear Hsame.
  assert (Hnil : progress onChunk [] = []) by now destruct onChunk.
  assert (Hchunks :
    forall (A : Type) (k : Eff A),
      (match prop parsed "chunk", onChunk with
       | Some c, Some cb =>
           if ToBoolean (prop parsed "chunk") then call cb c else ret tt
       | _, _ => ret tt
       end ;; k) tr
      = k (tr ++ progress onChunk
                   (match (if ToBoolean (prop parsed "chunk")
                           then prop parsed "chunk" else None) with
                    | Some d => [d]
                    | None => []
                    end ++ []))).
  { intros A k. unfold bind.
    destruct (prop parsed "chunk") as [c|] eqn:Hchunk.
    - destruct (ToBoolean (Some c)) eqn:Hc.
      + destruct onChunk as [cb|].
        * unfold call. now rewrite (Hquiet cb eq_refl).
        * cbn [ret progress app]. now rewrite app_nil_r.
      + cbn [app]. rewrite Hnil, app_nil_r. now destruct onChunk.
    - cbn [ToBoolean app]. now rewrite Hnil, app_nil_r. }
  unfold try_catch. rewrite Hchunks.
  destruct (ToBoolean (prop parsed "done") && ToBoolean (prop parsed "result"))%bool
    eqn:Hd; [|reflexivity].
  destruct (prop parsed "result"); [reflexivity|].
  cbn [ToBoolean] in Hd. now rewrite andb_false_r in Hd.
Qed.

Lemma proxy_lines_clean (onChunk : option callback) (lines : list string) :
  returns_always onChunk ->
  Forall (fun line => proxy_clean line = true) lines ->
  forall (result : option json) (tr : list event),
    for_of (proxy_line onChunk) lines result tr
    = (tr ++ progress onChunk (deltas_of proxy_chunk lines),
       Returned (last_result lines result)).
Proof.
  intros Hquiet Hclean. induction Hclean as [|line lines Hline _ IH];
    intros result tr.
  - destruct onChunk; cbn; now rewrite app_nil_r.
  - cbn [for_of]. unfold bind.
    rewrite (proxy_line_clean onChunk line result tr Hquiet Hline), IH.
    change (line :: lines) with ([line] ++ lines).
    now rewrite deltas_of_app, progress_app, app_assoc.
Qed.
End ProxyRecords.

Section ProxyCalls.
Context {rt : JSRuntime}.
Variable net : network.

Lemma last_result_truthy (lines : list string) :
  forall (result : option json) (v : json),
    (forall w, result = Some w -> ToBoolean (Some w) = true) ->
    last_result lines result = Some v -> ToBoolean (Some v) = true.
Proof.
  induction lines as [|line lines IH]; intros result v Hresult.
  - cbn. intros H. now apply Hresult.
  - cbn [last_result fold_left]. apply IH.
    destruct (delivers_result line) as [w|] eqn:E; [|exact Hresult].
    intros w' Hw. inversion Hw; subst. now apply delivers_result_truthy in E.
Qed.

(** X7: a proxied planning call on a stream whose lines are all clean,
    with a callback that returns (or none): the callback is called once for
    each truthy [chunk] of the records, in the order of the stream, and the
    call returns the result of the last [done] record that delivers one, or
    raises ["No result received from stream"] when none does. *)
Theorem proxied_planning_on_a_clean_stream :
  forall (apiConfig : ApiConfig) (document : string)
         (presentationConfig : PresentationConfig) (onChunk : option callback)
         (tr : list event) (t : Z) (r : response) (chunks : list string),
    let req := proxy_plan_request apiConfig document presentationConfig in
    let lines := lines_of (String_concat chunks) in
    net req = Resolves t r ->
    ok r = true ->
    body r = Some chunks ->
    returns_always onChunk ->
    Forall (fun line => proxy_clean line = true) lines ->
    planPresentationServerProxy net document presentationConfig apiConfig
      onChunk tr
    = ((tr ++ [EvFetch req]) ++ progress onChunk (deltas_of proxy_chunk lines),
       match last_result lines None with
       | Some v => Returned v
       | None => Threw (Error "No result received from stream")
       end).
Proof.
  intros apiConfig document presentationConfig onChunk tr t r chunks req lines
    Hnet Hok Hbody Hquiet Hclean.
  rewrite (planPresentationServerProxy_answered _ _ _ _ _ t r chunks)
    by assumption.
  fold req. unfold bind. rewrite read_stream_lines. fold lines.
  rewrite (proxy_lines_clean onChunk lines Hquiet Hclean).
  destruct (last_result lines None) as [v|] eqn:E; [|reflexivity].
  rewrite (last_result_truthy lines None v); [reflexivity| |exact E].
  intros w Hw. discriminate Hw.
Qed.


(** X9: in the proxy loop an [Error] that the progress callback throws
    stops the call and reaches the caller (the direct loops swallow it):
    the callback has been called with the chunk, and nothing is read after
    that line. *)
Theorem proxy_callback_error_stops_the_loop :
  forall (cb : callback) (line : string) (c : json)
         (chunks : list string) (before after : list string)
         (result result1 : option json) (tr tr1 : list event)
         (name message : string),
    lines_of (String_concat chunks) = before ++ line :: after ->
    for_of (proxy_line (Some cb)) before result tr = (tr1, Returned result1) ->
    proxy_clean line = true ->
    proxy_chunk line = Some c ->
    cb tr1 c = Some (ErrorObj name message) ->
    String.eqb message "Unexpected end of JSON input" = false ->
    read_stream (proxy_line (Some cb)) chunks result tr
    = (tr1 ++ [EvChunk c], Threw (ErrorObj name message)).
Proof.
  intros cb line c chunks before after result result1 tr tr1 name message
    Hlines Hbefore Hclean Hchunk Hthrows Hmessage.
  rewrite read_stream_lines, Hlines, for_of_app. unfold bind at 1.
  rewrite Hbefore. cbn [for_of]. unfold bind at 1.
  unfold proxy_clean in Hclean. unfold proxy_chunk in Hchunk.
  destruct (startsWith line "data: ") eqn:Hdata; [|discriminate].
  destruct (JSON_parse (slice 6 line)) as [parsed|] eqn:Hparse; [|discriminate].
  assert (Hnn : parsed <> JNull) by (intros ->; discriminate).
  rewrite (proxy_line_parsed (Some cb) line parsed) by assumption.
  assert (Herr : ToBoolean (prop parsed "error") = false)
    by (destruct parsed; try congruence; now apply negb_true_iff).
  assert (Hc : prop parsed "chunk" = Some c /\ ToBoolean (Some c) = true).
  { destruct parsed; try discriminate;
      match goal with
      | H : (if ToBoolean ?x then _ else _) = Some c |- _ =>
          destruct (ToBoolean x) eqn:E; [|discriminate];
          rewrite H in E; now split
      end. }
  destruct Hc as [Hc Htruthy].
  rewrite Herr, Hc, Htruthy. unfold try_catch, bind, call. rewrite Hthrows.
  cbn [proxy_catch]. now rewrite Hmessage.
Qed.
End ProxyCalls.

(* ================================================================== *)
(** * One request for each call *)

Section OneRequest.
Context {rt : JSRuntime}.
Variable cleanJsonString : string -> string.
Variable net : network.

(** A request under a signal leaves one event, whatever follows it, when
    what follows adds none. *)
Lemma guarded_fetch_trace {A} (req : request) (limit : Z)
    (k : response -> Eff A) (tr : list event) :
  (forall r tr', fst (k r tr') = tr') ->
  fst (try_catch (r <- fetch net req ;; k r) (timeout_or_rethrow limit) tr)
  = tr ++ [EvFetch req].
Proof.
  intros Hk. unfold try_catch, bind, fetch.
  assert (Hh : forall e tr', fst (@timeout_or_rethrow rt A limit e tr') = tr')
    by (intros; unfold timeout_or_rethrow; now destruct (is_AbortError e)).
  destruct (match net req, req_signal req with
            | Resolves t r, Some l => if t <? l then Returned r else Threw AbortError
            | Resolves _ r, None => Returned r
            | Rejects t e, Some l => if t <? l then Threw e else Threw AbortError
            | Rejects _ e, None => Threw e
            | Silent, Some _ => Threw AbortError
            | Silent, None => Pending
            end) as [r|e|]; try apply Hh; try reflexivity.
  specialize (Hk r (tr ++ [EvFetch req])).
  destruct (k r (tr ++ [EvFetch req])) as [tr1 [a|e|]]; cbn [fst] in *;
    try assumption.
  rewrite Hh. assumption.
Qed.

Lemma JSON_parse_or_throw_trace (s : string) (tr : list event) :
  fst (JSON_parse_or_throw s tr) = tr.
Proof. unfold JSON_parse_or_throw. now destruct (JSON_parse s). Qed.

Lemma member_trace (base : json) (k : string) (tr : list event) :
  fst (member base k tr) = tr.
Proof. now destruct base. Qed.

Lemma member_of_value_trace (base : value) (k : string) (tr : list event) :
  fst (member_of_value base k tr) = tr.
Proof. destruct base; [apply member_trace | reflexivity]. Qed.

Lemma bind_trace {A B} (m : Eff A) (k : A -> Eff B) (tr : list event) :
  (forall tr', fst (m tr') = tr') ->
  (forall a tr', fst (k a tr') = tr') ->
  fst ((x <- m ;; k x) tr) = tr.
Proof.
  intros Hm Hk. unfold bind. specialize (Hm tr).
  destruct (m tr) as [tr1 [a|e|]]; cbn [fst] in *; subst; auto.
Qed.

Lemma extractImage_parts_trace (parts : list json) (tr : list event) :
  fst (extractImage_parts parts tr) = tr.
Proof.
  revert tr. induction parts as [|part parts IH]; intros tr; [reflexivity|].
  cbn [extractImage_parts]. apply bind_trace; [apply member_trace|].
  intros inlineData tr'. destruct (ToBoolean _); [reflexivity | apply IH].
Qed.

Lemma extractImage_trace (response : json) (tr : list event) :
  fst (extractImage response tr) = tr.
Proof.
  unfold extractImage. apply bind_trace; [apply member_trace|].
  intros candidates tr'. apply bind_trace.
  - intros tr''. unfold iterate. now destruct (match js_or _ _ with Some x => x | None => _ end).
  - intros parts tr''. apply extractImage_parts_trace.
Qed.

Lemma plan_stream_trace (apiConfig : ApiConfig) (document : string)
    (presentationConfig : PresentationConfig) (tr : list event) :
  fst (plan_stream net apiConfig document presentationConfig tr)
  = tr ++ [EvFetch (plan_request apiConfig document presentationConfig)].
Proof.
  unfold plan_stream, plan_request, clientStreamVertexAPI, clientStreamOpenAIAPI.
  destruct (protocol apiConfig); apply guarded_fetch_trace;
    intros r tr'; now destruct (negb (ok r)).
Qed.

Lemma image_call_trace (apiConfig : ApiConfig) (slide : SlideContent)
    (deckTitle : string) (presentationConfig : PresentationConfig)
    (tr : list event) :
  fst (match protocol apiConfig with
       | OPENAI =>
           clientCallOpenAIImageAPI net apiConfig (imageModelId apiConfig)
             (OpenAIChatImageBody slide deckTitle presentationConfig)
             default_timeoutMs
       | VERTEX_AI =>
           clientCallVertexAPI net apiConfig (imageModelId apiConfig)
             (VertexImageBody slide deckTitle presentationConfig)
             default_timeoutMs
       end tr)
  = tr ++ [EvFetch (image_request apiConfig slide deckTitle presentationConfig)].
Proof.
  unfold image_request, clientCallVertexAPI, clientCallOpenAIImageAPI.
  destruct (protocol apiConfig); apply guarded_fetch_trace;
    intros r tr'; (destruct (negb (ok r));
                   [reflexivity | apply JSON_parse_or_throw_trace]).
Qed.

(** A line of the proxy stream adds progress callbacks to the trace, and
    nothing else. *)
Lemma proxy_line_trace (onChunk : option callback) (line : string)
    (result : option json) (tr : list event) :
  exists evs,
    fst (proxy_line onChunk line result tr) = tr ++ evs
    /\ forallb is_chunk evs = true.
Proof.
  assert (Hcatch : forall (e : thrown) tr',
             fst (proxy_catch result e tr') = tr').
  { intros e tr'. unfold proxy_catch. destruct e as [n m|]; [|reflexivity].
    now destruct (negb _). }
  destruct (startsWith line "data: ") eqn:Hdata.
  2:{ exists []. unfold proxy_line. rewrite Hdata, app_nil_r. now split. }
  destruct (JSON_parse (slice 6 line)) as [parsed|message] eqn:Hparse.
  2:{ exists []. rewrite (proxy_line_unparsable onChunk line message) by assumption.
      rewrite app_nil_r. now split. }
  assert (Hcases : parsed = JNull \/ parsed <> JNull)
    by (destruct parsed; (now left) || (right; discriminate)).
  destruct Hcases as [->|Hnn].
  { exists []. unfold proxy_line. rewrite Hdata.
    unfold JSON_parse_or_throw. rewrite Hparse.
    unfold try_catch, bind, ret, member, throw. cbn beta iota.
    rewrite Hcatch, app_nil_r. now split. }
  rewrite (proxy_line_parsed onChunk line parsed) by assumption.
  destruct (ToBoolean (prop parsed "error")).
  { exists []. rewrite Hcatch, app_nil_r. now split. }
  unfold try_catch, bind.
  destruct (prop parsed "chunk") as [c|];
    [destruct onChunk as [cb|]; [destruct (ToBoolean (Some c))|]|].
  - unfold call. exists [EvChunk c].
    destruct (cb tr c); [rewrite Hcatch; now split|].
    split; [|reflexivity]. now destruct (_ && _)%bool.
  - exists []. rewrite app_nil_r. split; [|reflexivity].
    cbn [ret]. now destruct (_ && _)%bool.
  - exists []. rewrite app_nil_r. split; [|reflexivity].
    cbn [ret]. now destruct (_ && _)%bool.
  - exists []. rewrite app_nil_r. split; [|reflexivity].
    cbn [ret]. now destruct (_ && _)%bool.
Qed.

Lemma proxy_lines_trace (onChunk : option callback) (lines : list string) :
  forall (result : option json) (tr : list event),
  exists evs,
    fst (for_of (proxy_line onChunk) lines result tr) = tr ++ evs
    /\ forallb is_chunk evs = true.
Proof.
  induction lines as [|line lines IH]; intros result tr.
  - exists []. cbn. now rewrite app_nil_r.
  - cbn [for_of]. unfold bind.
    destruct (proxy_line_trace onChunk line result tr) as (evs & Hevs & Hchunks).
    destruct (proxy_line onChunk line result tr) as [tr1 [r1|e|]];
      cbn [fst] in Hevs; subst tr1; try (exists evs; now split).
    destruct (IH r1 (tr ++ evs)) as (evs' & Hevs' & Hchunks').
    exists (evs ++ evs'). rewrite Hevs', app_assoc. split; [reflexivity|].
    now rewrite forallb_app, Hchunks, Hchunks'.
Qed.

(** X10: a facade call with a configuration sends exactly one request,
    whatever the network answers and whatever the stream holds: the request
    of its transport and protocol comes first, and what follows it in the
    trace is progress callbacks only (none for an image). No call sends a
    second request. *)
Theorem one_request_per_call :
  forall (apiConfig : ApiConfig) (document : string)
         (presentationConfig : PresentationConfig) (onChunk : option callback)
         (slide : SlideContent) (deckTitle : string) (tr : list event),
    let plan :=
      match requestMode apiConfig with
      | CLIENT_DIRECT => plan_request apiConfig document presentationConfig
      | SERVER_PROXY => proxy_plan_request apiConfig document presentationConfig
      end in
    let image :=
      match requestMode apiConfig with
      | CLIENT_DIRECT => image_request apiConfig slide deckTitle presentationConfig
      | SERVER_PROXY => proxy_gen_request apiConfig slide deckTitle presentationConfig
      end in
    (exists evs,
        fst (planPresentation cleanJsonString net (Some apiConfig) document
               presentationConfig onChunk tr) = tr ++ EvFetch plan :: evs
        /\ forallb is_chunk evs = true)
    /\ fst (generateSlideImage net (Some apiConfig) slide deckTitle
              presentationConfig tr) = tr ++ [EvFetch image].
Proof.
  intros apiConfig document presentationConfig onChunk slide deckTitle tr.
  unfold planPresentation, generateSlideImage.
  destruct (requestMode apiConfig); cbn zeta; split.
  - rewrite planPresentationClientDirect_unfold. unfold bind at 1.
    pose proof (plan_stream_trace apiConfig document presentationConfig tr) as Htr.
    destruct (plan_stream net apiConfig document presentationConfig tr)
      as [tr1 [r|e|]]; cbn [fst] in Htr; subst tr1;
      try (exists []; now split).
    unfold bind at 1, getReader.
    destruct (body r) as [chunks|]; cbn [ret throw]; [|exists []; now split].
    unfold bind. rewrite direct_stream_run.
    exists (progress onChunk
              (deltas_of (delta_of (protocol apiConfig))
                         (lines_of (String_concat chunks)))).
    rewrite JSON_parse_or_throw_trace, <- app_assoc. split; [reflexivity|].
    destruct onChunk; [|reflexivity]. cbn [progress].
    now induction (deltas_of _ _).
  - unfold generateSlideImageClientDirect.
    pose proof (image_call_trace apiConfig slide deckTitle presentationConfig tr)
      as Htr.
    destruct (protocol apiConfig); unfold bind at 1.
    + destruct (clientCallVertexAPI net apiConfig (imageModelId apiConfig)
                  (VertexImageBody slide deckTitle presentationConfig)
                  default_timeoutMs tr) as [tr1 [r|e|]];
        cbn [fst] in Htr; subst tr1; try reflexivity.
      apply (bind_trace (extractImage r)); [apply extractImage_trace|].
      intros [uri|] tr'; [now destruct (String.eqb uri "") | reflexivity].
    + destruct (clientCallOpenAIImageAPI net apiConfig (imageModelId apiConfig)
                  (OpenAIChatImageBody slide deckTitle presentationConfig)
                  default_timeoutMs tr) as [tr1 [r|e|]];
        cbn [fst] in Htr; subst tr1; try reflexivity.
      apply (bind_trace (member r "choices")); [apply member_trace|].
      intros choices tr'.
      destruct (choices?.[0]?."message"?."images") as [imgs|]; [|reflexivity].
      destruct (negb _ || _)%bool; [reflexivity|].
      apply bind_trace; intros; apply member_of_value_trace.
  - unfold planPresentationServerProxy, proxy_plan_request.
    unfold bind at 1, fetch at 1. cbn [req_signal].
    destruct (net _) as [t r|t e|]; try (exists []; now split).
    unfold bind at 1. destruct (ok r); cbn [negb ret throw]; [|exists []; now split].
    unfold bind at 1, getReader.
    destruct (body r) as [chunks|]; cbn [ret throw]; [|exists []; now split].
    unfold bind. rewrite read_stream_lines.
    match goal with
    | |- context [for_of ?h ?l None ?t0] =>
        destruct (proxy_lines_trace onChunk l None t0) as (evs & Hevs & Hchunks);
        destruct (for_of h l None t0) as [tr1 [[v|]|e|]]
    end; cbn [fst] in Hevs; subst tr1; exists evs;
      rewrite <- app_assoc; (split; [|assumption]);
      try reflexivity.
    now destruct (ToBoolean (Some v)).
  - unfold generateSlideImageServerProxy, proxy_gen_request.
    unfold bind at 1, fetch at 1. cbn [req_signal].
    destruct (net _) as [t r|t e|]; try reflexivity.
    unfold bind at 1. destruct (ok r); cbn [negb ret throw]; [|reflexivity].
    apply (bind_trace (response_json r)); [apply JSON_parse_or_throw_trace|].
    intros data tr'. apply member_trace.
Qed.
End OneRequest.

(* ================================================================== *)
(** * Images on the other paths *)

Section OtherImages.
Context {rt : JSRuntime}.
Variable net : network.

(** X11: a direct OpenAI image call that is answered with a completion
    returns the [image_url.url] of the first element of
    [choices[0].message.images]; when [images] is missing, falsy or an empty
    array it raises ["No image generated"]. *)
Theorem openai_image_is_the_first_image_url :
  forall (apiConfig : ApiConfig) (slide : SlideContent) (deckTitle : string)
         (presentationConfig : PresentationConfig) (tr : list event)
         (t : Z) (r : response) (completion : json),
    requestMode apiConfig = CLIENT_DIRECT ->
    protocol apiConfig = OPENAI ->
    let req := image_request apiConfig slide deckTitle presentationConfig in
    net req = Resolves t r ->
    (t <? default_timeoutMs) = true ->
    ok r = true ->
    JSON_parse (response_text r) = inl completion ->
    completion <> JNull ->
    let images := (prop completion "choices")?.[0]?."message"?."images" in
    (forall first rest image_url,
        images = Some (JArray (first :: rest)) ->
        first <> JNull ->
        prop first "image_url" = Some image_url ->
        image_url <> JNull ->
        generateSlideImage net (Some apiConfig) slide deckTitle
          presentationConfig tr
        = (tr ++ [EvFetch req], Returned (prop image_url "url")))
    /\ (ToBoolean images = false \/ images = Some (JArray []) ->
        generateSlideImage net (Some apiConfig) slide deckTitle
          presentationConfig tr
        = (tr ++ [EvFetch req], Threw (Error "No image generated"))).
Proof.
  intros apiConfig slide deckTitle presentationConfig tr t r completion
    Hmode Hproto req Hnet Ht Hok Hjson Hnn images.
  assert (Hcall :
    generateSlideImage net (Some apiConfig) slide deckTitle presentationConfig tr
    = match images with
      | Some imgs =>
          if negb (ToBoolean images) || length_is_zero imgs
          then throw (Error "No image generated")
          else image_url <- member_of_value (index0 imgs) "image_url" ;;
               member_of_value image_url "url"
      | None => throw (Error "No image generated")
      end (tr ++ [EvFetch req])).
  { unfold generateSlideImage. rewrite Hmode.
    unfold generateSlideImageClientDirect, req, image_request in *.
    rewrite Hproto in *. unfold bind at 1, clientCallOpenAIImageAPI.
    erewrite guarded_fetch_resolved by (try reflexivity; eassumption).
    rewrite Hok. cbn [negb].
    unfold try_catch, response_json, JSON_parse_or_throw. rewrite Hjson.
    cbn [ret]. unfold bind at 1.
    rewrite member_not_null by assumption. reflexivity. }
  rewrite Hcall. split.
  - intros first rest image_url Himages Hfirst Hurl Hu. rewrite Himages.
    cbn [ToBoolean negb length_is_zero orb index0 hd_error].
    unfold bind, member_of_value.
    rewrite (member_not_null first) by assumption. cbn [ret]. rewrite Hurl.
    now rewrite (member_not_null image_url) by assumption.
  - intros [Hfalsy | Hempty].
    + destruct images as [imgs|]; [|reflexivity]. now rewrite Hfalsy.
    + now rewrite Hempty.
Qed.


Lemma chat_call_resolved (config : OpenAIApi.VertexApiConfig) (model : string)
    (requestBody : request_body) (t : Z) (r : response) (tr : list event) :
  let req := {| req_url := OpenAIApi.apiBase config +++ "/chat/completions";
                req_auth := Some ("Authorization",
                                  "Bearer " +++ OpenAIApi.apiKey config);
                req_body := requestBody;
                req_signal := Some default_timeoutMs |} in
  net req = Resolves t r ->
  (t <? default_timeoutMs) = true ->
  ok r = true ->
  OpenAIApi.callOpenAIChatAPI net config model requestBody default_timeoutMs tr
  = (let (tr', o) := response_json r (tr ++ [EvFetch req]) in (tr', o)).
Proof.
  intros req Hnet Ht Hok. unfold OpenAIApi.callOpenAIChatAPI, req in *.
  erewrite guarded_fetch_resolved by (try reflexivity; eassumption).
  rewrite Hok. cbn [negb]. unfold try_catch, response_json, JSON_parse_or_throw.
  now destruct (JSON_parse (response_text r)).
Qed.



(** X15: the two calls of [openai-api.ts] are bounded as the direct calls
    of [api.ts] are: their request carries a signal aborted after 180000
    milliseconds, and when the transport has not settled it by then they
    raise the timeout error. *)
Theorem chat_and_images_calls_time_out :
  forall (config : OpenAIApi.VertexApiConfig) (document : string)
         (slide : SlideContent) (deckTitle : string)
         (presentationConfig : PresentationConfig) (tr : list event),
    Number_toString default_timeoutMs (-3) = "180" ->
    let plan := chat_plan_request config document presentationConfig in
    let image := images_request config slide deckTitle presentationConfig in
    (settles_before (net plan) default_timeoutMs = false ->
     OpenAIApi.planPresentationOpenAI net config document presentationConfig tr
     = (tr ++ [EvFetch plan], Threw (Error "Request timeout after 180 seconds")))
    /\ (settles_before (net image) default_timeoutMs = false ->
        OpenAIApi.generateSlideImageOpenAI net config slide deckTitle
          presentationConfig tr
        = (tr ++ [EvFetch image],
           Threw (Error "Request timeout after 180 seconds"))).
Proof.
  intros config document slide deckTitle presentationConfig tr Hprint plan image.
  assert (Hmsg : timeout_message default_timeoutMs
                 = "Request timeout after 180 seconds")
    by (unfold timeout_message; now rewrite Hprint).
  split; intros Hlate.
  - unfold OpenAIApi.planPresentationOpenAI, OpenAIApi.callOpenAIChatAPI,
      plan, chat_plan_request in *.
    unfold bind at 1.
    rewrite guarded_fetch_timeout by (reflexivity || exact Hlate).
    now rewrite Hmsg.
  - unfold OpenAIApi.generateSlideImageOpenAI, OpenAIApi.callOpenAIImageAPI,
      image, images_request in *.
    unfold bind at 1.
    rewrite guarded_fetch_timeout by (reflexivity || exact Hlate).
    now rewrite Hmsg.
Qed.
End OtherImages.

(* ================================================================== *)
(** * Further runs *)

Section MoreRuns.
#[local] Existing Instance Reference.runtime.

(** Witness of X1: the same two events, cut after each line and cut inside
    the first line. *)
Lemma reading_ignores_chunk_boundaries_witness :
  read_stream (vertex_line (Some quiet))
    [sse [vertex_event "AB"]; sse [vertex_event "CD"]] "" []
  = read_stream (vertex_line (Some quiet))
      ["data: {"; q "'candidates':[{'content':{'parts':[{'text':'AB'}]}}]}"
                  +++ String newline "" +++ sse [vertex_event "CD"]] "" [].
Proof.
  apply reading_ignores_chunk_boundaries; vm_compute; reflexivity.
Defined.

(** Witness of X2: a last event without its line feed. *)
Lemma unfinished_last_line_is_dropped_witness :
  read_stream (openai_line (Some quiet))
    ([sse [openai_event "AB"]] ++ [openai_event "CD"]) "" []
  = read_stream (openai_line (Some quiet)) [sse [openai_event "AB"]] "" [].
Proof.
  apply unfinished_last_line_is_dropped; vm_compute; reflexivity.
Defined.

(** Witness of X3: a comment line between two events. *)
Lemma lines_without_prefix_are_ignored_witness :
  read_stream (vertex_line (Some quiet))
    [sse [vertex_event "AB"; ": keep-alive"; vertex_event "CD"]] "" []
  = read_stream (vertex_line (Some quiet))
      [sse [vertex_event "AB"; vertex_event "CD"]] "" [].
Proof.
  refine (proj1 (lines_without_prefix_are_ignored (Some quiet) ": keep-alive"
                   [sse [vertex_event "AB"; ": keep-alive"; vertex_event "CD"]]
                   [sse [vertex_event "AB"; vertex_event "CD"]]
                   [vertex_event "AB"] [vertex_event "CD"] [] _ _ _) VERTEX_AI);
    vm_compute; reflexivity.
Defined.


(** Witness of X5: a network failure on a direct image call. *)
Lemma transport_rejection_is_passed_on_witness :
  generateSlideImage (rejecting (TypeError "Failed to fetch"))
    (Some (sample_config OPENAI CLIENT_DIRECT)) JNull "a deck" JNull []
  = ([EvFetch (image_request (sample_config OPENAI CLIENT_DIRECT)
                 JNull "a deck" JNull)],
     Threw (TypeError "Failed to fetch")).
Proof.
  refine (proj2 (proj1 (transport_rejection_is_passed_on
                          Reference.cleanJsonString
                          (rejecting (TypeError "Failed to fetch"))
                          (sample_config OPENAI CLIENT_DIRECT) "a document" JNull
                          None JNull "a deck" [] 250 (TypeError "Failed to fetch"))
                   _ _ _) _);
    vm_compute; reflexivity.
Defined.

(** Witness of X6: a proxied planning call. *)
Lemma response_without_body_is_an_error_witness :
  planPresentation Reference.cleanJsonString bodiless
    (Some (sample_config OPENAI SERVER_PROXY)) "a document" JNull None []
  = ([EvFetch (proxy_plan_request (sample_config OPENAI SERVER_PROXY)
                 "a document" JNull)],
     Threw (Error "No response body")).
Proof.
  refine (response_without_body_is_an_error Reference.cleanJsonString bodiless
            (sample_config OPENAI SERVER_PROXY) "a document" JNull None [] 250
            {| ok := true; statusText := "OK"; body := None |} _ _ _ _);
    vm_compute; reflexivity.
Defined.

(** Witness of X7: two chunks, a comment and the final record. *)
Lemma proxied_planning_on_a_clean_stream_witness :
  planPresentationServerProxy
    (answering [sse [q "data: {'chunk':'AB'}"; ": keep-alive";
                     q "data: {'chunk':'CD'}";
                     q "data: {'done':true,'result':{'title':'T','slides':[]}}"]])
    "a document" JNull (sample_config VERTEX_AI SERVER_PROXY) (Some quiet) []
  = ([EvFetch (proxy_plan_request (sample_config VERTEX_AI SERVER_PROXY)
                 "a document" JNull);
      EvChunk (JString "AB"); EvChunk (JString "CD")],
     Returned (JObject [("title", JString "T"); ("slides", JArray [])])).
Proof.
  refine (eq_trans
            (proxied_planning_on_a_clean_stream
               (answering [sse [q "data: {'chunk':'AB'}"; ": keep-alive";
                                q "data: {'chunk':'CD'}";
                                q "data: {'done':true,'result':{'title':'T','slides':[]}}"]])
               (sample_config VERTEX_AI SERVER_PROXY) "a document" JNull
               (Some quiet) [] 250
               {| ok := true; statusText := "OK";
                  body := Some [sse [q "data: {'chunk':'AB'}"; ": keep-alive";
                                     q "data: {'chunk':'CD'}";
                                     q "data: {'done':true,'result':{'title':'T','slides':[]}}"]] |}
               [sse [q "data: {'chunk':'AB'}"; ": keep-alive";
                     q "data: {'chunk':'CD'}";
                     q "data: {'done':true,'result':{'title':'T','slides':[]}}"]]
               _ _ _ _ _) _);
    try (vm_compute; reflexivity).
  - intros cb H; injection H as <-; reflexivity.
  - apply Forall_forall, (proj1 (forallb_forall proxy_clean _)).
    vm_compute; reflexivity.
Defined.


(** Witness of X9: a callback that throws on the first chunk. *)
Lemma proxy_callback_error_stops_the_loop_witness :
  read_stream (proxy_line (Some failing_callback))
    [sse [q "data: {'chunk':'AB'}"; q "data: {'chunk':'CD'}"]] None []
  = ([EvChunk (JString "AB")], Threw (Error "the view is gone")).
Proof.
  refine (proxy_callback_error_stops_the_loop failing_callback
            (q "data: {'chunk':'AB'}") (JString "AB")
            [sse [q "data: {'chunk':'AB'}"; q "data: {'chunk':'CD'}"]]
            [] [q "data: {'chunk':'CD'}"] None None [] []
            "Error" "the view is gone" _ _ _ _ _ _);
    vm_compute; reflexivity.
Defined.

(** Witness of X11: a completion with one image. *)
Lemma openai_image_is_the_first_image_url_witness :
  generateSlideImage
    (answering [q "{'choices':[{'message':{'images':[{'image_url':{'url':'data:image/png;base64,QUJD'}}]}}]}"])
    (Some (sample_config OPENAI CLIENT_DIRECT)) JNull "a deck" JNull []
  = ([EvFetch (image_request (sample_config OPENAI CLIENT_DIRECT)
                 JNull "a deck" JNull)],
     Returned (Some (JString "data:image/png;base64,QUJD"))).
Proof.
  refine (eq_trans
            (proj1 (openai_image_is_the_first_image_url
                      (answering [q "{'choices':[{'message':{'images':[{'image_url':{'url':'data:image/png;base64,QUJD'}}]}}]}"])
                      (sample_config OPENAI CLIENT_DIRECT) JNull "a deck" JNull []
                      250
                      {| ok := true; statusText := "OK";
                         body := Some [q "{'choices':[{'message':{'images':[{'image_url':{'url':'data:image/png;base64,QUJD'}}]}}]}"] |}
                      (JObject [("choices", JArray [JObject [("message", JObject [("images", JArray [JObject [("image_url", JObject [("url", JString "data:image/png;base64,QUJD")])]])])]])])
                      _ _ _ _ _ _ _)
               (JObject [("image_url", JObject [("url", JString "data:image/png;base64,QUJD")])])
               []
               (JObject [("url", JString "data:image/png;base64,QUJD")])
               _ _ _ _) _);
    try (vm_compute; reflexivity); discriminate.
Defined.




(** Witness of X15: a transport that never answers. *)
Lemma chat_and_images_calls_time_out_witness :
  OpenAIApi.planPresentationOpenAI silent compatible_config
    "a document" JNull []
  = ([EvFetch (chat_plan_request compatible_config
                 "a document" JNull)],
     Threw (Error "Request timeout after 180 seconds")).
Proof.
  refine (proj1 (chat_and_images_calls_time_out silent
                   compatible_config "a document" JNull
                   "a deck" JNull [] _) _);
    vm_compute; reflexivity.
Defined.
End MoreRuns.

(* ================================================================== *)
(** * The route of the Gemini proxy: what it answers and sends *)

Import GeminiRoute.

Section RouteFacts.
Context {rt : JSRuntime}.
Variable net : upstream_network.

Lemma sbind_returned {A B} (m : Srv A) (k : A -> Srv B) tr tr' a :
  m tr = (tr', Returned a) -> sbind m k tr = k a tr'.
Proof. intros H. unfold sbind. now rewrite H. Qed.

Lemma lift_parse (s : string) (v : json) tr :
  JSON_parse s = inl v -> lift (JSON_parse_or_throw s) tr = (tr, Returned v).
Proof. intros H. unfold lift, JSON_parse_or_throw. now rewrite H. Qed.

Lemma lift_member (base : json) (k : string) tr :
  base <> JNull -> lift (member base k) tr = (tr, Returned (prop base k)).
Proof. intros H. unfold lift. now rewrite member_not_null. Qed.

Lemma lift_destructure (base : json) (name k : string) tr :
  base <> JNull -> lift (destructure base name k) tr = (tr, Returned (prop base k)).
Proof. intros H. unfold lift. destruct base; try reflexivity. congruence. Qed.


Lemma reports_bind {A} (m : Srv A) (k : A -> Srv next_response) :
  (forall a tr, match snd (k a tr) with
                | Returned resp => reports resp
                | _ => True
                end) ->
  forall tr, match snd (sbind m k tr) with
             | Returned resp => reports resp
             | _ => True
             end.
Proof.
  intros Hk tr. unfold sbind.
  destruct (m tr) as [tr' [a | e |]]; cbn; trivial. apply Hk.
Qed.

Lemma reports_success (content : json) : reports (respond 200 (success content)).
Proof. left. split; [reflexivity | now exists content]. Qed.

Lemma reports_bad_request (message : string) :
  reports (respond 400 (failure message)).
Proof. right. split; [now left | now exists message]. Qed.

Lemma reports_server_error (message : string) :
  reports (respond 500 (failure message)).
Proof. right. split; [now right | now exists message]. Qed.

Ltac reports_steps :=
  repeat first
    [ apply reports_success
    | apply reports_bad_request
    | exact I
    | match goal with
      | |- forall _, _ => intro
      | |- match snd (sbind _ _ _) with _ => _ end =>
          apply reports_bind
      | |- match snd ((if ?b then _ else _) _) with _ => _ end =>
          destruct b
      | |- match snd (match ?x with _ => _ end _) with _ => _ end =>
          destruct x
      end
    | progress cbn [sret sthrow snd] ].

Lemma handlePlanPresentation_reports (apiKey : string) (p : json)
    (tr : list upstream_request) :
  match snd (handlePlanPresentation net apiKey p tr) with
  | Returned resp => reports resp
  | _ => True
  end.
Proof. unfold handlePlanPresentation. reports_steps. Qed.

Lemma handleGenerateImage_reports (apiKey : string) (p : json)
    (tr : list upstream_request) :
  match snd (handleGenerateImage net apiKey p tr) with
  | Returned resp => reports resp
  | _ => True
  end.
Proof. unfold handleGenerateImage. reports_steps. Qed.

Lemma handleOptimizeContent_reports (apiKey : string) (p : json)
    (tr : list upstream_request) :
  match snd (handleOptimizeContent net apiKey p tr) with
  | Returned resp => reports resp
  | _ => True
  end.
Proof. unfold handleOptimizeContent. reports_steps. Qed.

(** X16: [POST] never throws. Whatever the request holds and whatever the
    upstream does, a call that completes returns a response: a success with
    status 200 and a content, or a failure with status 400 or 500 and a
    message. *)
Theorem POST_always_answers :
  forall (headerKey envKey : option string) (body : string)
         (tr : list upstream_request),
    match snd (POST net headerKey envKey body tr) with
    | Returned resp => reports resp
    | Threw _ => False
    | Pending => True
    end.
Proof.
  intros headerKey envKey body tr. unfold POST, stry.
  match goal with
  | |- context [(sbind ?m ?k) tr] =>
      assert (H : match snd (sbind m k tr) with
                  | Returned resp => reports resp
                  | _ => True
                  end)
  end.
  { revert tr. reports_steps.
    - apply handlePlanPresentation_reports.
    - apply handleGenerateImage_reports.
    - apply handleOptimizeContent_reports. }
  match goal with
  | H : match snd ?run with _ => _ end |- _ => destruct run as [tr' [resp | e |]]
  end; cbn in *; trivial.
  apply reports_server_error.
Qed.

(** X17: without a key (no [x-api-key] header or an empty one, and no
    [GEMINI_API_KEY] or an empty one) [POST] answers 500 with the message of
    [getApiKey]: the body of the request is not read and nothing is sent. *)
Theorem missing_key_is_reported_first :
  forall (headerKey envKey : option string) (body : string)
         (tr : list upstream_request),
    headerKey = None \/ headerKey = Some "" ->
    envKey = None \/ envKey = Some "" ->
    POST net headerKey envKey body tr
    = (tr, Returned (respond 500 (failure
         "API key not configured. Please add GEMINI_API_KEY to .env.local"))).
Proof.
  intros headerKey envKey body tr [-> | ->] [-> | ->]; reflexivity.
Qed.


(** ** The requests of the route *)

Lemma sends_ret {A} (apiKey : string) (a : A) : sends_at_most 0 apiKey (sret a).
Proof. intros tr. exists []. cbn. rewrite app_nil_r. repeat constructor. Qed.

Lemma sends_throw {A} (apiKey : string) (e : thrown) :
  sends_at_most 0 apiKey (@sthrow A e).
Proof. intros tr. exists []. cbn. rewrite app_nil_r. repeat constructor. Qed.

Lemma sends_lift {A} (apiKey : string) (m : Eff A) :
  sends_at_most 0 apiKey (lift m).
Proof. intros tr. exists []. cbn. rewrite app_nil_r. repeat constructor. Qed.

Lemma sends_fetch (apiKey : string) (req : upstream_request) :
  carries_key apiKey req -> sends_at_most 1 apiKey (sfetch net req).
Proof. intros H tr. exists [req]. cbn. repeat constructor. exact H. Qed.

Lemma sends_weaken {A} (a b : nat) (apiKey : string) (m : Srv A) :
  (a <= b)%nat -> sends_at_most a apiKey m -> sends_at_most b apiKey m.
Proof.
  intros Hab H tr. destruct (H tr) as (sent & Hfst & Hall & Hlen).
  exists sent. repeat split; trivial. now apply Nat.le_trans with a.
Qed.

Lemma sends_bind {A B} (a b : nat) (apiKey : string) (m : Srv A)
    (k : A -> Srv B) :
  sends_at_most a apiKey m -> (forall x, sends_at_most b apiKey (k x)) ->
  sends_at_most (a + b) apiKey (sbind m k).
Proof.
  intros Hm Hk tr. destruct (Hm tr) as (sent & Hfst & Hall & Hlen).
  unfold sbind. destruct (m tr) as [tr' [x | e |]]; cbn in Hfst; subst tr'.
  - destruct (Hk x (tr ++ sent)) as (sent' & Hfst' & Hall' & Hlen').
    exists (sent ++ sent'). rewrite Hfst', app_assoc. repeat split.
    + apply Forall_app. now split.
    + rewrite length_app. now apply Nat.add_le_mono.
  - exists sent. repeat split; trivial. cbn. now apply Nat.le_trans with a, Nat.le_add_r.
  - exists sent. repeat split; trivial. cbn. now apply Nat.le_trans with a, Nat.le_add_r.
Qed.

Lemma sends_try {A} (a : nat) (apiKey : string) (m : Srv A)
    (h : thrown -> Srv A) :
  sends_at_most a apiKey m -> (forall e, sends_at_most 0 apiKey (h e)) ->
  sends_at_most a apiKey (stry m h).
Proof.
  intros Hm Hh tr. destruct (Hm tr) as (sent & Hfst & Hall & Hlen).
  unfold stry. destruct (m tr) as [tr' [x | e |]]; cbn in Hfst; subst tr'.
  - now exists sent.
  - destruct (Hh e (tr ++ sent)) as (sent' & Hfst' & Hall' & Hlen').
    destruct sent' as [| req sent']; [| now inversion Hlen'].
    exists sent. rewrite Hfst', app_nil_r. now repeat split.
  - now exists sent.
Qed.

Lemma generateContent_carries_key (apiKey : string) (model : json)
    (b : upstream_body) :
  carries_key apiKey
    {| url := GEMINI_API_BASE +++ "/models/" +++ ToString model
              +++ ":generateContent?key=" +++ apiKey;
       upstream := b |}.
Proof.
  exists (ToString model +++ ":generateContent"). cbn [url].
  now rewrite !append_assoc.
Qed.

Lemma imagen_carries_key (apiKey : string) (slide deckTitle config : value) :
  carries_key apiKey (imagen_request apiKey slide deckTitle config).
Proof. now exists "imagen-3.0-generate-002:predict". Qed.

Lemma callGeminiAPI_sends (apiKey : string) (model : json) (b : upstream_body) :
  sends_at_most 1 apiKey (callGeminiAPI net apiKey model b).
Proof.
  unfold callGeminiAPI.
  apply (sends_bind 1 0).
  - apply sends_fetch, generateContent_carries_key.
  - intros r. destruct (negb (ok r)); [apply sends_throw | apply sends_lift].
Qed.

Lemma document_text_sends (apiKey : string) (document : value) :
  sends_at_most 0 apiKey (document_text document).
Proof.
  unfold document_text.
  destruct (ToBoolean document); [| apply sends_ret].
  destruct document as [[] |]; first [apply sends_ret | apply sends_throw].
Qed.

Ltac sends_steps :=
  repeat first
    [ apply sends_ret
    | apply sends_throw
    | apply sends_lift
    | apply document_text_sends
    | apply callGeminiAPI_sends
    | apply sends_fetch, imagen_carries_key
    | match goal with
      | |- sends_at_most _ _ _ => fail 1
      | |- forall _, _ => intro
      end
    | match goal with
      | |- sends_at_most _ _ (if ?b then _ else _) => destruct b
      | |- sends_at_most _ _ (match ?x with _ => _ end) => destruct x
      | |- sends_at_most 0 _ (sbind _ _) => apply (sends_bind 0 0)
      | |- sends_at_most 1 _ (sbind (callGeminiAPI _ _ _ _) _) =>
          apply (sends_bind 1 0)
      | |- sends_at_most 1 _ (sbind _ _) => apply (sends_bind 0 1)
      | |- sends_at_most 2 _ (sbind (sfetch _ _) _) => apply (sends_bind 1 1)
      | |- sends_at_most 2 _ (sbind _ _) => apply (sends_bind 0 2)
      | |- sends_at_most (S ?n) _ (sret _) =>
          apply (sends_weaken 0); [apply Nat.le_0_l |]
      | |- sends_at_most (S ?n) _ (sthrow _) =>
          apply (sends_weaken 0); [apply Nat.le_0_l |]
      end ].

Lemma handlePlanPresentation_sends (apiKey : string) (p : json) :
  sends_at_most 1 apiKey (handlePlanPresentation net apiKey p).
Proof.
  unfold handlePlanPresentation. sends_steps.
Qed.

Lemma handleOptimizeContent_sends (apiKey : string) (p : json) :
  sends_at_most 1 apiKey (handleOptimizeContent net apiKey p).
Proof. unfold handleOptimizeContent. sends_steps. Qed.

Lemma handleGenerateImage_sends (apiKey : string) (p : json) :
  sends_at_most 2 apiKey (handleGenerateImage net apiKey p).
Proof. unfold handleGenerateImage. sends_steps. Qed.


Lemma sends_ret_bind {A B} (n : nat) (apiKey : string) (a : A)
    (k : A -> Srv B) :
  sends_at_most n apiKey (k a) -> sends_at_most n apiKey (sbind (sret a) k).
Proof. intros H tr. exact (H tr). Qed.

Lemma getApiKey_chosen (headerKey envKey : option string) (k : string) :
  headerKey = Some k
  \/ ((headerKey = None \/ headerKey = Some "") /\ envKey = Some k) ->
  k <> "" ->
  getApiKey headerKey envKey = sret k.
Proof.
  intros H Hk. apply String.eqb_neq in Hk. unfold getApiKey.
  destruct H as [-> | [[-> | ->] ->]]; cbn; now rewrite ?Hk.
Qed.

(** X18: the key of the [x-api-key] header goes before that of the
    environment, which is used when the header is missing or empty. Every
    request that [POST] sends has the chosen key at the end of its address,
    and [POST] sends at most two requests. *)
Theorem requests_carry_the_chosen_key :
  forall (headerKey envKey : option string) (body : string)
         (tr : list upstream_request) (k : string),
    headerKey = Some k
    \/ ((headerKey = None \/ headerKey = Some "") /\ envKey = Some k) ->
    k <> "" ->
    exists sent,
      fst (POST net headerKey envKey body tr) = tr ++ sent
      /\ Forall (carries_key k) sent
      /\ (List.length sent <= 2)%nat.
Proof.
  intros headerKey envKey body tr k H Hk.
  assert (Hsends : sends_at_most 2 k (POST net headerKey envKey body)).
  { unfold POST. rewrite (getApiKey_chosen _ _ _ H Hk).
    apply sends_try; [| intros e; apply sends_ret].
    apply sends_ret_bind.
    sends_steps.
    - apply (sends_weaken 1); [repeat constructor |].
      apply handlePlanPresentation_sends.
    - apply handleGenerateImage_sends.
    - apply (sends_weaken 1); [repeat constructor |].
      apply handleOptimizeContent_sends. }
  exact (Hsends tr).
Qed.

(** ** Refusals come before requests *)

Lemma refuses_bad_request (message : string) :
  refuses_before_sending (sret (respond 400 (failure message))).
Proof. intros tr. cbn. now left. Qed.

Lemma refuses_throw (e : thrown) : refuses_before_sending (sthrow e).
Proof. intros tr. exact I. Qed.

Lemma answers_success_ret (content : json) :
  answers_success (sret (respond 200 (success content))).
Proof. intros tr. cbn. split; [reflexivity |]. exists []. now rewrite app_nil_r. Qed.

Lemma answers_success_throw (e : thrown) : answers_success (sthrow e).
Proof. intros tr. exact I. Qed.

Lemma refuses_bind_silent {A} (m : Srv A) (k : A -> Srv next_response) :
  (forall tr, fst (m tr) = tr) ->
  (forall a, refuses_before_sending (k a)) ->
  refuses_before_sending (sbind m k).
Proof.
  intros Hm Hk tr. unfold sbind. specialize (Hm tr).
  destruct (m tr) as [tr' [a | e |]]; cbn in Hm; subst tr'; trivial.
  apply Hk.
Qed.

Lemma refuses_bind_request {A} (m : Srv A) (k : A -> Srv next_response) :
  (forall tr, exists req, fst (m tr) = tr ++ [req]) ->
  (forall a, answers_success (k a)) ->
  refuses_before_sending (sbind m k).
Proof.
  intros Hm Hk tr. unfold sbind. destruct (Hm tr) as [req Hreq].
  destruct (m tr) as [tr' [a | e |]]; cbn in Hreq; subst tr'; trivial.
  specialize (Hk a (tr ++ [req])).
  destruct (k a (tr ++ [req])) as [tr'' [resp | e |]]; trivial.
  destruct Hk as [Hstatus [sent ->]]. right. split; [exact Hstatus |].
  exists req, sent. now rewrite <- app_assoc.
Qed.

Lemma answers_success_bind {A} (m : Srv A) (k : A -> Srv next_response) :
  (forall tr, exists sent, fst (m tr) = tr ++ sent) ->
  (forall a, answers_success (k a)) ->
  answers_success (sbind m k).
Proof.
  intros Hm Hk tr. unfold sbind. destruct (Hm tr) as [sent Hsent].
  destruct (m tr) as [tr' [a | e |]]; cbn in Hsent; subst tr'; trivial.
  specialize (Hk a (tr ++ sent)).
  destruct (k a (tr ++ sent)) as [tr'' [resp | e |]]; trivial.
  destruct Hk as [Hstatus [sent' ->]]. split; [exact Hstatus |].
  exists (sent ++ sent'). now rewrite app_assoc.
Qed.

Lemma lift_extends {A} (m : Eff A) (tr : list upstream_request) :
  exists sent, fst (lift m tr) = tr ++ sent.
Proof. exists []. cbn. now rewrite app_nil_r. Qed.

Lemma callGeminiAPI_request (apiKey : string) (model : json) (b : upstream_body)
    (tr : list upstream_request) :
  exists req, fst (callGeminiAPI net apiKey model b tr) = tr ++ [req].
Proof.
  eexists. unfold callGeminiAPI, sbind, sfetch.
  destruct (net _) as [t r | t e |]; cbn; try reflexivity.
  destruct (negb (ok r)); reflexivity.
Qed.

Lemma callGeminiAPI_extends (apiKey : string) (model : json) (b : upstream_body)
    (tr : list upstream_request) :
  exists sent, fst (callGeminiAPI net apiKey model b tr) = tr ++ sent.
Proof.
  destruct (callGeminiAPI_request apiKey model b tr) as [req H]. now exists [req].
Qed.

Lemma document_text_silent (document : value) (tr : list upstream_request) :
  fst (document_text document tr) = tr.
Proof.
  unfold document_text. destruct (ToBoolean document); [| reflexivity].
  destruct document as [[] |]; reflexivity.
Qed.

Lemma getApiKey_silent (headerKey envKey : option string)
    (tr : list upstream_request) :
  fst (getApiKey headerKey envKey tr) = tr.
Proof.
  unfold getApiKey.
  match goal with
  | |- fst (match ?x with _ => _ end tr) = tr => destruct x as [k |]
  end; [destruct (String.eqb k "") |]; reflexivity.
Qed.

Ltac answers_steps :=
  repeat first
    [ apply answers_success_ret
    | apply answers_success_throw
    | match goal with
      | |- answers_success _ => fail 1
      | |- forall _, _ => intro
      end
    | match goal with
      | |- answers_success (if ?b then _ else _) => destruct b
      | |- answers_success (match ?x with _ => _ end) => destruct x
      | |- answers_success (sbind (lift _) _) =>
          apply answers_success_bind; [intro; apply lift_extends |]
      | |- answers_success (sbind (callGeminiAPI _ _ _ _) _) =>
          apply answers_success_bind; [intro; apply callGeminiAPI_extends |]
      end ].

Ltac refuses_steps :=
  repeat first
    [ apply refuses_bad_request
    | apply refuses_throw
    | match goal with
      | |- refuses_before_sending _ => fail 1
      | |- forall _, _ => intro
      end
    | match goal with
      | |- refuses_before_sending (if ?b then _ else _) => destruct b
      | |- refuses_before_sending (match ?x with _ => _ end) => destruct x
      | |- refuses_before_sending (sbind (lift _) _) =>
          apply refuses_bind_silent; [intro; reflexivity |]
      | |- refuses_before_sending (sbind (document_text _) _) =>
          apply refuses_bind_silent; [intro; apply document_text_silent |]
      | |- refuses_before_sending (sbind (getApiKey _ _) _) =>
          apply refuses_bind_silent; [intro; apply getApiKey_silent |]
      | |- refuses_before_sending (sbind (callGeminiAPI _ _ _ _) _) =>
          apply refuses_bind_request;
          [intro; apply callGeminiAPI_request | answers_steps]
      | |- refuses_before_sending (sbind (sfetch _ _) _) =>
          apply refuses_bind_request;
          [intro; eexists; reflexivity | answers_steps]
      end ].

Lemma handlePlanPresentation_refuses (apiKey : string) (p : json) :
  refuses_before_sending (handlePlanPresentation net apiKey p).
Proof. unfold handlePlanPresentation. refuses_steps. Qed.

Lemma handleGenerateImage_refuses (apiKey : string) (p : json) :
  refuses_before_sending (handleGenerateImage net apiKey p).
Proof. unfold handleGenerateImage. refuses_steps. Qed.

Lemma handleOptimizeContent_refuses (apiKey : string) (p : json) :
  refuses_before_sending (handleOptimizeContent net apiKey p).
Proof. unfold handleOptimizeContent. refuses_steps. Qed.

(** X19: an answer of [POST] with status 400 is given before anything is
    sent upstream, and an answer with status 200 only after a request has
    been sent. *)
Theorem refusals_come_before_requests :
  forall (headerKey envKey : option string) (body : string)
         (tr tr' : list upstream_request) (resp : next_response),
    POST net headerKey envKey body tr = (tr', Returned resp) ->
    (status resp = 400 -> tr' = tr)
    /\ (status resp = 200 -> exists req sent, tr' = tr ++ req :: sent).
Proof.
  intros headerKey envKey body tr tr' resp. unfold POST, stry.
  match goal with
  | |- context [(sbind ?m ?k) tr] =>
      assert (H : refuses_before_sending (sbind m k))
  end.
  { refuses_steps.
    - apply handlePlanPresentation_refuses.
    - apply handleGenerateImage_refuses.
    - apply handleOptimizeContent_refuses. }
  specialize (H tr).
  match goal with
  | H : match ?run with _ => _ end |- _ => destruct run as [tr1 [resp1 | e |]]
  end.
  - intros [= <- <-]. destruct H as [[Hs ->] | [Hs Hsent]]; rewrite Hs.
    + split; [reflexivity | discriminate].
    + split; [discriminate | intros _; exact Hsent].
  - intros [= <- <-]. cbn. split; discriminate.
  - discriminate.
Qed.


(** ** The dispatch *)

Lemma getApiKey_returned (headerKey envKey : option string) (apiKey : string)
    (tr : list upstream_request) :
  snd (getApiKey headerKey envKey tr) = Returned apiKey ->
  getApiKey headerKey envKey tr = (tr, Returned apiKey).
Proof.
  intros H. pose proof (getApiKey_silent headerKey envKey tr) as Hfst.
  destruct (getApiKey headerKey envKey tr) as [tr' o]. cbn in *. congruence.
Qed.

Lemma stry_answered (m : Srv next_response) (tr : list upstream_request) :
  stry m
    (fun error =>
       sret (respond 500 (failure match error with
                                  | ErrorObj _ message => message
                                  | NonError => "Internal server error"
                                  end))) tr
  = answered (m tr).
Proof. unfold stry, answered. destruct (m tr) as [tr' [resp | e |]]; reflexivity. Qed.

Lemma prop_not_null (base : json) (k : string) (v : json) :
  prop base k = Some v -> base <> JNull.
Proof. intros H ->. discriminate. Qed.



(** ** The image handler *)

Lemma extractImage_parts_not_empty (parts : list json) (uri : string)
    (tr tr' : list event) :
  extractImage_parts parts tr = (tr', Returned (Some uri)) ->
  String.eqb uri "" = false.
Proof.
  revert tr. induction parts as [| part rest IH]; intros tr; cbn [extractImage_parts].
  - discriminate.
  - unfold bind. destruct (member part "inlineData" tr) as [tr1 [inlineData | e |]];
      try discriminate.
    destruct (ToBoolean _).
    + intros [= _ <-]. reflexivity.
    + apply IH.
Qed.

Lemma extractImage_not_empty (g : json) (uri : string) (tr tr' : list event) :
  extractImage g tr = (tr', Returned (Some uri)) -> String.eqb uri "" = false.
Proof.
  unfold extractImage, bind.
  destruct (member g "candidates" tr) as [tr1 [candidates | e |]]; try discriminate.
  destruct (iterate _ tr1) as [tr2 [parts | e |]]; try discriminate.
  apply extractImage_parts_not_empty.
Qed.

Lemma callGeminiAPI_answered (apiKey : string) (model : json)
    (b : upstream_body) (tr : list upstream_request) (t : Z) (r : response) :
  let req := {| url := GEMINI_API_BASE +++ "/models/" +++ ToString model
                       +++ ":generateContent?key=" +++ apiKey;
                upstream := b |} in
  net req = Resolves t r ->
  callGeminiAPI net apiKey model b tr
  = (tr ++ [req],
     if ok r
     then snd (response_json r [])
     else Threw (Error ("Gemini API error: " +++ call_error_message r))).
Proof.
  intros req Hnet. unfold callGeminiAPI, sbind, sfetch. fold req.
  rewrite Hnet. destruct (ok r); reflexivity.
Qed.

Section ImagePrompt.
Variables (apiKey : string) (p prompt data slide config : json).
Variable tr : list upstream_request.
Hypothesis Hprompt : prop p "prompt" = Some prompt.
Hypothesis Htruthy : ToBoolean (Some prompt) = true.
Hypothesis Hdata : JSON_parse (ToString prompt) = inl data.
Hypothesis Hslide : prop data "slide" = Some slide.
Hypothesis Hslide_object : slide <> JNull.
Hypothesis Hconfig : prop data "config" = Some config.
Hypothesis Hconfig_object : config <> JNull.

Lemma handleGenerateImage_prepared :
  handleGenerateImage net apiKey p tr
  = (r <~ sfetch net (imagen_request apiKey (Some slide) (prop data "deckTitle")
                        (Some config)) ;;
     if negb (ok r) then
       g <~ callGeminiAPI net apiKey
              (or_default (prop p "model") "gemini-2.0-flash-exp")
              (GeminiImageBody (Some slide) (prop data "deckTitle") (Some config)) ;;
       imageData <~ lift (extractImage g) ;;
       match imageData with
       | Some uri =>
           if String.eqb uri "" then sthrow (Error "No image generated")
           else sret (respond 200 (success (JString uri)))
       | None => sthrow (Error "No image generated")
       end
     else
       result <~ lift (response_json r) ;;
       predictions <~ lift (member result "predictions") ;;
       let imageBase64 := predictions?.[0]?."bytesBase64Encoded" in
       if ToBoolean imageBase64
       then sret (respond 200 (success (JString ("data:image/png;base64,"
                                                 +++ ToString_value imageBase64))))
       else sthrow (Error "No image generated")) tr.
Proof.
  unfold handleGenerateImage. rewrite Hprompt, Htruthy. cbn [negb].
  cbn [ToString_value].
  rewrite (sbind_returned _ _ _ _ _ (lift_parse _ _ _ Hdata)).
  rewrite (sbind_returned _ _ _ _ _
             (lift_destructure _ _ _ _ (prop_not_null _ _ _ Hslide))).
  rewrite Hslide, Hconfig. cbn [member_of_value].
  rewrite (sbind_returned _ _ _ _ _ (lift_member _ _ _ Hconfig_object)).
  rewrite (sbind_returned _ _ _ _ _ (lift_member _ _ _ Hslide_object)).
  reflexivity.
Qed.


End ImagePrompt.


(** ** The text handlers *)

Lemma lift_extractText (g : json) (tr : list upstream_request) :
  g <> JNull ->
  lift (extractText g) tr
  = (tr,
     let text := (prop g "candidates")?.[0]?."content"?."parts"?.[0]?."text" in
     match text with
     | Some content =>
         if ToBoolean text then Returned content
         else Threw (Error "No text in response")
     | None => Threw (Error "No text in response")
     end).
Proof.
  intros Hnn. unfold lift, extractText. rewrite (member_not_null _ _ Hnn).
  unfold bind, ret. cbv zeta.
  destruct ((prop g "candidates")?.[0]?."content"?."parts"?.[0]?."text")
    as [content |]; [| reflexivity].
  destruct (ToBoolean (Some content)); reflexivity.
Qed.



End RouteFacts.

Section RouteRuns.
#[local] Existing Instance Reference.runtime.

(** Witness of X17: no header and an empty variable. *)
Lemma missing_key_is_reported_first_witness :
  POST (upstream_answering true "{}") None (Some "") "not read" []
  = ([], Returned (respond 500 (failure
       "API key not configured. Please add GEMINI_API_KEY to .env.local"))).
Proof.
  apply missing_key_is_reported_first; [left | right]; reflexivity.
Defined.

(** Witness of X18: a key in the header and another in the environment. *)
Lemma requests_carry_the_chosen_key_witness :
  exists sent,
    fst (POST (upstream_answering true (q "{'candidates':[{'content':{'parts':[{'text':'Shorter.'}]}}]}"))
           (Some "from-header") (Some "from-env")
           (q "{'action':'optimize-content','payload':{'prompt':'make it short'}}")
           [])
    = [] ++ sent
    /\ Forall (carries_key "from-header") sent
    /\ (List.length sent <= 2)%nat.
Proof.
  apply requests_carry_the_chosen_key; [left; reflexivity | discriminate].
Defined.

(** Witness of X19: a body without an action. *)
Lemma refusals_come_before_requests_witness :
  fst (POST (upstream_answering true "{}") None (Some "k") "{}" []) = [].
Proof.
  refine (proj1 (refusals_come_before_requests (upstream_answering true "{}")
                   None (Some "k") "{}" []
                   (fst (POST (upstream_answering true "{}") None (Some "k") "{}" []))
                   (respond 400 (failure "Missing action or payload")) _) _);
    vm_compute; reflexivity.
Defined.





End RouteRuns.
